(** * AuthContext: the session manager of the admin front-end

    A shallow embedding of [src/contexts/AuthContext.tsx].

    The component owns three pieces of mutable state: the browser's
    [localStorage], the shared HTTP client's default headers
    ([axios.defaults.headers.common]) and four React state cells.  Every
    operation is a sequential program over that state which may suspend at
    a network call; the backend is a parameter that answers each request.
    The two interceptors installed by the provider sit on the path of every
    request made through the shared client.  *)

From Stdlib Require Import String ZArith List Bool Lia.
From stdpp Require Import base option gmap strings pretty.

Local Open Scope string_scope.
Local Open Scope Z_scope.

(** ** JavaScript values used by the component *)

(** Truthiness of a [string | null | undefined]: only a non-empty string
    passes an [if]. *)
Definition truthy (v : option string) : bool :=
  match v with
  | Some s => negb (String.eqb s "")
  | None => false
  end.

(** [a || b] on such values. *)
Definition js_or (a b : option string) : option string :=
  if truthy a then a else b.

(** How a template literal renders [${v}]. *)
Definition template (v : option string) : string :=
  match v with
  | Some s => s
  | None => "null"
  end.

(** Truthiness of an object reference that may be [null] or [undefined]. *)
Definition present {A} (v : option A) : bool :=
  match v with
  | Some _ => true
  | None => false
  end.

(** [hay.includes(needle)] *)
Definition includes (needle hay : string) : bool :=
  match String.index 0 needle hay with
  | Some _ => true
  | None => false
  end.

(** ** Data model (the interfaces at the top of the file) *)

Record User := {
  u_id : Z;
  u_name : string;
  u_email : string;
  u_role : string;
  u_full_name : option string;
  u_api_token : option string
}.

Record Profile := {
  p_id : Z;
  p_name : string;
  p_email : string;
  p_role : string;
  p_full_name : string
}.

(** Response shapes, as given to [axios.post<...>] and [axios.get<...>].
    An optional field that is missing (or [null]) is [None]. *)
Record LoginData := {
  login_success : option bool;
  login_token : option string;
  login_user : option User;
  login_message : option string
}.

Record CheckAuthData := {
  authenticated : bool;
  check_user : option User
}.

Record ProfileData := {
  profile_success : bool;
  profile_data : option Profile
}.

(** ** The mutable state *)

Record World := {
  localStorage : gmap string string;
  common : gmap string string;     (* axios.defaults.headers.common *)
  user : option User;
  profile : option Profile;
  loading : bool;
  isAuthenticated : bool
}.

(** The state setters.  Each replaces one component and keeps the rest. *)
Definition with_localStorage (f : gmap string string -> gmap string string) (w : World) : World :=
  let '(Build_World ls hd u p l a) := w in Build_World (f ls) hd u p l a.

Definition with_common (f : gmap string string -> gmap string string) (w : World) : World :=
  let '(Build_World ls hd u p l a) := w in Build_World ls (f hd) u p l a.

Definition with_user (u' : option User) (w : World) : World :=
  let '(Build_World ls hd u p l a) := w in Build_World ls hd u' p l a.

Definition with_profile (p' : option Profile) (w : World) : World :=
  let '(Build_World ls hd u p l a) := w in Build_World ls hd u p' l a.

Definition with_loading (l' : bool) (w : World) : World :=
  let '(Build_World ls hd u p l a) := w in Build_World ls hd u p l' a.

Definition with_isAuthenticated (a' : bool) (w : World) : World :=
  let '(Build_World ls hd u p l a) := w in Build_World ls hd u p l a'.

(** The state a freshly mounted provider starts from ([useState] defaults),
    over whatever the browser and the client already hold. *)
Definition mounted (storage defaults : gmap string string) : World :=
  {| localStorage := storage; common := defaults; user := None;
     profile := None; loading := true; isAuthenticated := false |}.

(** ** Requests, replies and what the HTTP client makes of them *)

Inductive Body :=
| NoBody
| Credentials (email password : string).

Record Config := {
  method : string;
  url : string;
  headers : option (gmap string string);
  body : Body
}.

(** What comes back from the network: an HTTP response, or nothing at all
    (the client then reports the [message], e.g. "Network Error").  The
    body of a response is taken at the type the call site declares for
    it. *)
Inductive Reply (A : Type) :=
| Http (status : Z) (data : A)
| NoResponse (message : string).
Arguments Http {A} status data.
Arguments NoResponse {A} message.

Record Response (A : Type) := { status : Z; data : A }.
Arguments status {A} _.
Arguments data {A} _.

(** A thrown value: [message] and, for the client's errors that carry one,
    [response].  A plain [new Error(m)] has no [response]. *)
Record JsError (A : Type) := {
  message : string;
  response : option (Response A)
}.
Arguments message {A} _.
Arguments response {A} _.

Definition Error {A} (m : string) : JsError A :=
  {| message := m; response := None |}.

(** [error.response?.status === n] *)
Definition response_status_is {A} (error : JsError A) (n : Z) : bool :=
  match response error with
  | Some r => status r =? n
  | None => false
  end.

(** The client's default [validateStatus]. *)
Definition validateStatus (st : Z) : bool := (200 <=? st) && (st <? 300).

(** The client settles a reply: a response of the 200 range resolves the
    promise, any other outcome rejects it. *)
Definition settle {A} (r : Reply A) : Response A + JsError A :=
  match r with
  | Http st d =>
      if validateStatus st then inl {| status := st; data := d |}
      else inr {| message := "Request failed with status code " ++ pretty st;
                  response := Some {| status := st; data := d |} |}
  | NoResponse m => inr (Error m)
  end.

Definition reply_status {A} (r : Reply A) : option Z :=
  match r with
  | Http st _ => Some st
  | NoResponse _ => None
  end.

(** The backend answers each endpoint from the request it receives. *)
Record Backend := {
  login_endpoint : Config -> Reply LoginData;
  logout_endpoint : Config -> Reply unit;
  check_auth_endpoint : Config -> Reply CheckAuthData;
  profile_endpoint : Config -> Reply ProfileData
}.

(** One line of the network log: the request as sent, and the status of
    its response if there was one. *)
Record Exchange := { sent : Config; answered : option Z }.

(** ** Effects: state, network log and exceptions *)

Record Run := { world : World; wire : list Exchange }.

Inductive Completion (E A : Type) :=
| Normal (a : A)
| Thrown (e : E).
Arguments Normal {E A} a.
Arguments Thrown {E A} e.

Definition Eff (E A : Type) : Type := Run -> Run * Completion E A.

#[export] Instance eff_ret {E} : MRet (Eff E) :=
  fun A a r => (r, Normal a).

#[export] Instance eff_bind {E} : MBind (Eff E) :=
  fun A B k m r =>
    match m r with
    | (r', Normal a) => k a r'
    | (r', Thrown e) => (r', Thrown e)
    end.

Definition throw {E A} (e : E) : Eff E A := fun r => (r, Thrown e).

(** [try { m } catch (e) { h e }] *)
Definition try_catch {E E' A} (m : Eff E A) (h : E -> Eff E' A) : Eff E' A :=
  fun r =>
    match m r with
    | (r', Normal a) => (r', Normal a)
    | (r', Thrown e) => h e r'
    end.

(** [try { m } finally { f }]: [f] runs either way, and an error thrown by
    [f] would replace the completion of [m]. *)
Definition try_finally {E A} (m : Eff E A) (f : Eff E unit) : Eff E A :=
  fun r =>
    match m r with
    | (r', c) =>
        match f r' with
        | (r'', Normal _) => (r'', c)
        | (r'', Thrown e) => (r'', Thrown e)
        end
    end.

Definition read {E} : Eff E World :=
  fun '(Build_Run w l) => (Build_Run w l, Normal w).

Definition update {E} (f : World -> World) : Eff E unit :=
  fun '(Build_Run w l) => (Build_Run (f w) l, Normal tt).

Definition record_exchange {E} (x : Exchange) : Eff E unit :=
  fun '(Build_Run w l) => (Build_Run w (l ++ [x]), Normal tt).

Definition when_ {E} (b : bool) (m : Eff E unit) : Eff E unit :=
  if b then m else mret tt.

(** Running an operation from a world, with an empty log. *)
Definition run {E A} (m : Eff E A) (w : World) : Run * Completion E A :=
  m {| world := w; wire := [] |}.

Definition final {E A} (m : Eff E A) (w : World) : World := world (fst (run m w)).
Definition log {E A} (m : Eff E A) (w : World) : list Exchange := wire (fst (run m w)).
Definition outcome {E A} (m : Eff E A) (w : World) : Completion E A := snd (run m w).

(** ** The component *)

Definition API_BASE_URL : string :=
  "https://onlinemanagerbackend-production.up.railway.app".

(** [localStorage.getItem("admin_token") || localStorage.getItem("token")] *)
Definition stored_token (storage : gmap string string) : option string :=
  js_or (storage !! "admin_token") (storage !! "token").

(** The request interceptor's fulfilled handler. *)
Definition requestInterceptor (storage : gmap string string) (config : Config) : Config :=
  let token := stored_token storage in
  match headers config with
  | Some h =>
      if truthy token then
        {| method := method config; url := url config;
           headers := Some (<["Authorization" := "Bearer " ++ template token]> h);
           body := body config |}
      else config
  | None => config
  end.

(** The request as it leaves the shared client in state [w]: the default
    headers are merged into the request's own (the provider's calls pass
    none), then the request interceptor runs. *)
Definition outgoing (w : World) (method url : string) (body : Body) : Config :=
  requestInterceptor (localStorage w)
    {| method := method; url := url; headers := Some (common w); body := body |}.

(** *** Standalone helpers exported next to the provider *)

Definition getAuthHeaders (storage : gmap string string) : gmap string string :=
  let token := stored_token storage in
  <["Authorization" := "Bearer " ++ template token]>
    (<["Content-Type" := "application/json"]> ∅).

Record AxiosConfig := { config_headers : gmap string string }.

Definition getAuthAxiosConfig (storage : gmap string string) : AxiosConfig :=
  let token := stored_token storage in
  {| config_headers :=
       <["Content-Type" := "application/json"]>
         (<["Authorization" := "Bearer " ++ template token]> ∅) |}.

(** [RequestInit], as far as the wrapper looks into it. *)
Record RequestInit := {
  init_method : option string;
  init_headers : option (gmap string string);
  init_body : option string
}.

(** [{ ...base, ...extra }]: the entries of [extra] win. *)
Definition spread_over (base : gmap string string) (extra : option (gmap string string))
  : gmap string string :=
  match extra with
  | Some h => h ∪ base
  | None => base
  end.

(** [authFetch] hands [fetch] the url and these options. *)
Definition authFetch (storage : gmap string string) (url : string) (options : RequestInit)
  : string * RequestInit :=
  let token := stored_token storage in
  let headers :=
    spread_over
      (<["Authorization" := "Bearer " ++ template token]>
         (<["Content-Type" := "application/json"]> ∅))
      (init_headers options) in
  (url, {| init_method := init_method options;
           init_headers := Some headers;
           init_body := init_body options |}).

Section Provider.

(** The server behind [API_BASE_URL], and the platform's [JSON.stringify]
    at the two types it is applied to. *)
Variable backend : Backend.
Variable JSON_stringify_user : User -> string.
Variable JSON_stringify_data : LoginData -> string.

Section Ops.
Context {E : Type}.

Definition getToken : Eff E (option string) :=
  w ← read; mret (stored_token (localStorage w)).

Definition setToken (token : string) : Eff E unit :=
  update (with_localStorage (insert "admin_token" token));;
  update (with_localStorage (insert "token" token));;
  update (with_common (insert "Authorization" ("Bearer " ++ token))).

Definition removeToken : Eff E unit :=
  update (with_localStorage (delete "admin_token"));;
  update (with_localStorage (delete "token"));;
  update (with_localStorage (delete "user"));;
  update (with_common (delete "Authorization")).

Definition setUser (u : option User) : Eff E unit := update (with_user u).
Definition setProfile (p : option Profile) : Eff E unit := update (with_profile p).
Definition setLoading (b : bool) : Eff E unit := update (with_loading b).
Definition setIsAuthenticated (b : bool) : Eff E unit := update (with_isAuthenticated b).

End Ops.

(** The response interceptor's rejected handler. *)
Definition responseInterceptor {A} (error : JsError A) : Eff (JsError A) (Response A) :=
  when_ (response_status_is error 401)
    (removeToken;; setUser None;; setProfile None;; setIsAuthenticated false);;
  throw error.

(** A call through the shared client: the defaults become the request's
    headers, the request interceptor runs, the request goes out, and the
    settled reply passes the response interceptor. *)
Definition request {A} (endpoint : Config -> Reply A)
    (method url : string) (body : Body) : Eff (JsError A) (Response A) :=
  w ← read;
  let config := outgoing w method url body in
  let reply := endpoint config in
  record_exchange {| sent := config; answered := reply_status reply |};;
  match settle reply with
  | inl response => mret response
  | inr error => responseInterceptor error
  end.

(** The profile fetch shared by [checkAuth], [refreshProfile] and
    [signIn]: failures are swallowed. *)
Definition fetch_profile {E} : Eff E unit :=
  try_catch
    (profileResponse ← request (profile_endpoint backend) "GET"
                         (API_BASE_URL ++ "/api/admin/profile") NoBody;
     when_ (profile_success (data profileResponse)
            && present (profile_data (data profileResponse)))
       (setProfile (profile_data (data profileResponse))))
    (fun _ => mret tt).

Definition checkAuth {E} : Eff E unit :=
  token ← getToken;
  if negb (truthy token) then
    setLoading false;;
    setIsAuthenticated false
  else
    try_finally
      (try_catch
         (update (with_common (insert "Authorization" ("Bearer " ++ template token)));;
          response ← request (check_auth_endpoint backend) "GET"
                       (API_BASE_URL ++ "/api/admin/check-auth") NoBody;
          if authenticated (data response)
             && present (check_user (data response)) then
            setUser (check_user (data response));;
            setIsAuthenticated true;;
            fetch_profile
          else
            throw (Error "Not authenticated - invalid response"))
         (fun _ : JsError CheckAuthData =>
            removeToken;;
            setUser None;;
            setProfile None;;
            setIsAuthenticated false))
      (setLoading false).

Definition refreshProfile {E} : Eff E unit := fetch_profile.

(** The token search of [signIn]: the top-level field first, then the
    user's [api_token]; the third branch only logs. *)
Definition find_token (d : LoginData) : option string :=
  if truthy (login_token d) then login_token d
  else if truthy (login_user d ≫= u_api_token) then login_user d ≫= u_api_token
  else None.

Definition placeholder_user (email : string) : User :=
  {| u_id := 1; u_name := "Admin"; u_email := email; u_role := "admin";
     u_full_name := None; u_api_token := None |}.

(** The error [signIn] rethrows from its [catch] block. *)
Definition classify (error : JsError LoginData) : JsError LoginData :=
  if response_status_is error 401 then
    Error "Invalid email or password"
  else if response_status_is error 500 then
    Error "Server error - please try again later"
  else if truthy (response error ≫= fun r => login_message (data r)) then
    Error (template (response error ≫= fun r => login_message (data r)))
  else if includes "no token" (message error) then
    let backendMsg :=
      match response error with
      | Some r => " Backend responded with: " ++ JSON_stringify_data (data r)
      | None => ""
      end in
    Error ("Login failed - no token in response." ++ backendMsg)
  else if includes "Network Error" (message error) then
    Error "Cannot connect to server. Check your internet connection."
  else
    Error "Login failed. Please try again.".

Definition signIn (email password : string) : Eff (JsError LoginData) unit :=
  w ← read;
  let originalAuthHeader := common w !! "Authorization" in
  try_catch
    (update (with_common (delete "Authorization"));;
     response ← request (login_endpoint backend) "POST"
                  (API_BASE_URL ++ "/api/admin/login") (Credentials email password);
     let token := find_token (data response) in
     if negb (truthy token) then
       throw (Error "Login failed - no token in response")
     else
       setToken (template token);;
       let userData := default (placeholder_user email) (login_user (data response)) in
       update (with_localStorage (insert "user" (JSON_stringify_user userData)));;
       setUser (Some userData);;
       setIsAuthenticated true;;
       fetch_profile)
    (fun error =>
       when_ (truthy originalAuthHeader)
         (update (with_common (insert "Authorization" (template originalAuthHeader))));;
       throw (classify error)).

Definition signOut {E} : Eff E unit :=
  try_finally
    (try_catch
       (_ ← request (logout_endpoint backend) "POST"
              (API_BASE_URL ++ "/api/admin/logout") NoBody;
        mret tt)
       (fun _ => mret tt))
    (removeToken;;
     setUser None;;
     setProfile None;;
     setIsAuthenticated false).

(** The mount effect: install the default header if a token is stored,
    then verify it. *)
Definition initialize {E} : Eff E unit :=
  token ← getToken;
  when_ (truthy token)
    (update (with_common (insert "Authorization" ("Bearer " ++ template token))));;
  checkAuth.

Definition profile_url : string := API_BASE_URL ++ "/api/admin/profile".

(** The operations the provider hands to the application, plus the
    verification it runs once on mount. *)
Inductive Operation :=
| SignIn (email password : string)
| SignOut
| CheckAuth
| RefreshProfile.

Definition perform (op : Operation) : Eff (JsError LoginData) unit :=
  match op with
  | SignIn email password => signIn email password
  | SignOut => signOut
  | CheckAuth => checkAuth
  | RefreshProfile => refreshProfile
  end.

End Provider.

(** ** Vocabulary of the properties *)

(** What the cleanup shared by [signOut], [checkAuth]'s failure path and
    the response interceptor leaves behind. *)
Definition clear_session (w : World) : World :=
  with_isAuthenticated false
    (with_profile None
       (with_user None
          (with_common (delete "Authorization")
             (with_localStorage (delete "user")
                (with_localStorage (delete "token")
                   (with_localStorage (delete "admin_token") w)))))).

Definition session_reset (w : World) : Prop :=
  user w = None /\ profile w = None /\ isAuthenticated w = false.

Definition token_removed (w : World) : Prop :=
  localStorage w !! "admin_token" = None /\ localStorage w !! "token" = None.

Definition cleared (w : World) : Prop := session_reset w /\ token_removed w.

(** A token is in storage when [getToken] would return a usable one. *)
Definition token_in_storage (w : World) : Prop :=
  truthy (stored_token (localStorage w)) = true.

(** The default header is set when it passes the test the component itself
    applies to it ([if (originalAuthHeader)]). *)
Definition default_header_set (w : World) : Prop :=
  truthy (common w !! "Authorization") = true.

Definition invariant (w : World) : Prop :=
  isAuthenticated w = true -> token_in_storage w /\ default_header_set w.

(** ** The operations in outline

    Named pieces of the runs: the requests as they are sent, and the
    states the operations pass through. *)

Section Outline.
Variable backend : Backend.
Variable JSON_stringify_user : User -> string.

Definition login_url : string := API_BASE_URL ++ "/api/admin/login".
Definition check_auth_url : string := API_BASE_URL ++ "/api/admin/check-auth".

(** The requests as the operations send them from state [w]. *)
Definition login_request (w : World) (email password : string) : Config :=
  outgoing (with_common (delete "Authorization") w) "POST" login_url
    (Credentials email password).

(** The state in which [checkAuth] sends its verification request. *)
Definition verifying (w : World) : World :=
  with_common (insert "Authorization"
                 ("Bearer " ++ template (stored_token (localStorage w)))) w.

Definition check_auth_request (w : World) : Config :=
  outgoing (verifying w) "GET" check_auth_url NoBody.

Definition profile_request (w : World) : Config :=
  outgoing w "GET" profile_url NoBody.

(** The log line of a request sent to an endpoint. *)
Definition exchange {A} (endpoint : Config -> Reply A) (config : Config) : Exchange :=
  {| sent := config; answered := reply_status (endpoint config) |}.

(** The state after the best-effort profile fetch made in state [w]. *)
Definition after_profile (w : World) : World :=
  match settle (profile_endpoint backend (profile_request w)) with
  | inl resp =>
      if profile_success (data resp) && present (profile_data (data resp))
      then with_profile (profile_data (data resp)) w
      else w
  | inr error =>
      if response_status_is error 401 then clear_session w else w
  end.

(** The state [signIn] builds from an extracted token. *)
Definition signed_in (token : string) (userData : User) (w : World) : World :=
  with_isAuthenticated true
    (with_user (Some userData)
       (with_localStorage (insert "user" (JSON_stringify_user userData))
          (with_common (insert "Authorization" ("Bearer " ++ token))
             (with_localStorage (insert "token" token)
                (with_localStorage (insert "admin_token" token) w))))).

(** What the [catch] block of [signIn] does to the default header. *)
Definition restore_header (original : option string) (w : World) : World :=
  if truthy original
  then with_common (insert "Authorization" (template original)) w
  else w.

End Outline.

(** The states the provider can be in: it is mounted over some storage and
    client defaults, runs the mount effect, and then serves operations,
    each against whatever the backend answers at that time. *)
Inductive reachable (storage defaults : gmap string string) : World -> Prop :=
| reach_mount (backend : Backend) :
    reachable storage defaults
      (final (@initialize backend unit) (mounted storage defaults))
| reach_operation (backend : Backend) (JSON_stringify_user : User -> string)
    (JSON_stringify_data : LoginData -> string) (op : Operation) (w : World) :
    reachable storage defaults w ->
    reachable storage defaults
      (final (perform backend JSON_stringify_user JSON_stringify_data op) w).

(** ** Scenarios

    Concrete users, stores and backends on which the operations are run. *)

Definition admin_user : User :=
  {| u_id := 1; u_name := "A"; u_email := "a@x.com"; u_role := "admin";
     u_full_name := None; u_api_token := None |}.

Definition admin_profile : Profile :=
  {| p_id := 1; p_name := "A"; p_email := "a@x.com"; p_role := "admin";
     p_full_name := "A" |}.

(** A renderer standing in for [JSON.stringify] in the scenarios. *)
Definition render_user (u : User) : string := "{email:" ++ u_email u ++ "}".

Definition render_data (d : LoginData) : string :=
  "{success:" ++ match login_success d with
                 | Some true => "true"
                 | Some false => "false"
                 | None => "undefined"
                 end ++ "}".

(** A session a previous sign-in with token [abc123] left behind. *)
Definition authenticated_world : World :=
  {| localStorage := <["token" := "abc123"]> (<["admin_token" := "abc123"]> ∅);
     common := <["Authorization" := "Bearer abc123"]> ∅;
     user := Some admin_user; profile := None; loading := false;
     isAuthenticated := true |}.

Definition fresh_world : World := mounted ∅ ∅.

Definition login_with_token : LoginData :=
  {| login_success := None; login_token := Some "abc123";
     login_user := Some admin_user; login_message := None |}.

(** [{success:true}] and nothing else. *)
Definition login_without_token : LoginData :=
  {| login_success := Some true; login_token := None;
     login_user := None; login_message := None |}.

(** An empty top-level token next to a user that carries one. *)
Definition login_with_empty_token : LoginData :=
  {| login_success := Some true; login_token := Some "";
     login_user := Some {| u_id := 1; u_name := "A"; u_email := "a@x.com";
                           u_role := "admin"; u_full_name := None;
                           u_api_token := Some "xyz789" |};
     login_message := None |}.

Definition no_profile : ProfileData :=
  {| profile_success := false; profile_data := None |}.

(** A backend that answers every request the same way per endpoint. *)
Definition fixed_backend (l : Reply LoginData) (p : Reply ProfileData)
    (c : Reply CheckAuthData) : Backend :=
  {| login_endpoint := fun _ => l;
     logout_endpoint := fun _ => Http 200 tt;
     check_auth_endpoint := fun _ => c;
     profile_endpoint := fun _ => p |}.

Definition healthy_backend : Backend :=
  fixed_backend (Http 200 login_with_token)
    (Http 200 {| profile_success := true; profile_data := Some admin_profile |})
    (Http 200 {| authenticated := true; check_user := Some admin_user |}).

(** The token has expired: the profile endpoint answers 401. *)
Definition expired_backend : Backend :=
  fixed_backend (Http 200 login_with_token) (Http 401 no_profile)
    (Http 401 {| authenticated := false; check_user := None |}).

Definition tokenless_backend : Backend :=
  fixed_backend (Http 200 login_without_token) (Http 200 no_profile)
    (Http 200 {| authenticated := true; check_user := None |}).

Definition empty_token_backend : Backend :=
  fixed_backend (Http 200 login_with_empty_token) (Http 200 no_profile)
    (Http 200 {| authenticated := true; check_user := None |}).

(** ** Further vocabulary *)

(** The Authorization header of a request, if it has one. *)
Definition authorization (config : Config) : option string :=
  headers config ≫= (.!! "Authorization").

(** The two token keys hold the same value (or are both empty). *)
Definition tokens_in_sync (w : World) : Prop :=
  localStorage w !! "admin_token" = localStorage w !! "token".

(** An authenticated session has a user, a usable stored token, and a
    default header that is the bearer form of exactly that token. *)
Definition session_consistent (w : World) : Prop :=
  isAuthenticated w = true ->
  is_Some (user w)
  /\ exists tok, tok <> ""
       /\ stored_token (localStorage w) = Some tok
       /\ common w !! "Authorization" = Some ("Bearer " ++ tok).

(** ** Further scenarios *)

Definition login_rejected : LoginData :=
  {| login_success := Some false; login_token := None; login_user := None;
     login_message := Some "These credentials do not match our records." |}.

Definition login_failure (st : Z) : Backend :=
  fixed_backend (Http st login_rejected) (Http 200 no_profile)
    (Http 200 {| authenticated := false; check_user := None |}).

Definition offline_backend : Backend :=
  {| login_endpoint := fun _ => NoResponse "Network Error";
     logout_endpoint := fun _ => NoResponse "Network Error";
     check_auth_endpoint := fun _ => NoResponse "Network Error";
     profile_endpoint := fun _ => NoResponse "Network Error" |}.

(** Storage a previous session left behind, before the provider mounts. *)
Definition returning_storage : gmap string string :=
  <["token" := "abc123"]> (<["admin_token" := "abc123"]> ∅).

(** Only the legacy key is filled, the primary one is empty. *)
Definition legacy_storage : gmap string string :=
  <["token" := "legacy42"]> (<["admin_token" := ""]> ∅).

(** A login response with a token but no user object. *)
Definition login_token_only : LoginData :=
  {| login_success := Some true; login_token := Some "abc123";
     login_user := None; login_message := None |}.

Definition userless_backend : Backend :=
  fixed_backend (Http 200 login_token_only) (Http 200 no_profile)
    (Http 200 {| authenticated := true; check_user := Some admin_user |}).

(** The provider as it mounts in a browser that still holds a token. *)
Definition returning_world : World := mounted returning_storage ∅.

Definition no_options : RequestInit :=
  {| init_method := None; init_headers := None; init_body := None |}.
(** * Properties *)

Arguments request : simpl never.

Ltac state_simpl :=
  cbn [world wire fst snd localStorage common user profile loading isAuthenticated
       with_localStorage with_common with_user with_profile with_loading
       with_isAuthenticated data status message response
       answered sent reply_status negb andb orb] in *.

Ltac eff_unfold :=
  unfold final, log, outcome, run, getToken, setToken, removeToken, setUser,
    setProfile, setLoading, setIsAuthenticated, when_, try_catch, try_finally,
    throw, read, update, record_exchange, mbind, mret, eff_bind, eff_ret in *.

Ltac eff_simpl := eff_unfold; state_simpl.

Ltac fold_clear :=
  repeat match goal with
  | |- context [with_isAuthenticated false (with_profile None (with_user None
         (with_common (delete "Authorization") (with_localStorage (delete "user")
           (with_localStorage (delete "token")
             (with_localStorage (delete "admin_token") ?w))))))] =>
      progress change (with_isAuthenticated false (with_profile None (with_user None
         (with_common (delete "Authorization") (with_localStorage (delete "user")
           (with_localStorage (delete "token")
             (with_localStorage (delete "admin_token") w)))))))
        with (clear_session w)
  end.

Lemma clear_session_reset w : session_reset (clear_session w).
Proof. destruct w. repeat split. Qed.

Lemma clear_session_removed w : token_removed (clear_session w).
Proof.
  destruct w as [ls hd u p l a]. unfold clear_session. split; state_simpl.
  - rewrite !lookup_delete_ne by discriminate. apply lookup_delete_eq.
  - rewrite lookup_delete_ne by discriminate. apply lookup_delete_eq.
Qed.

Lemma clear_session_idem w : clear_session (clear_session w) = clear_session w.
Proof.
  destruct w as [ls hd u p l a]. unfold clear_session. state_simpl. f_equal.
  - rewrite (delete_delete _ "admin_token" "user"), (delete_delete _ "admin_token" "token").
    rewrite delete_delete_eq, (delete_delete _ "token" "user").
    by rewrite !delete_delete_eq.
  - apply delete_delete_eq.
Qed.

Lemma validateStatus_401 st : validateStatus st = true -> st <> 401.
Proof. unfold validateStatus. lia. Qed.

Section Client.
Context {A : Type} (endpoint : Config -> Reply A).

(** The three ways a call through the shared client ends. *)
Lemma request_run method url body w l :
  let config := outgoing w method url body in
  let x := {| sent := config; answered := reply_status (endpoint config) |} in
  request endpoint method url body {| world := w; wire := l |} =
    match settle (endpoint config) with
    | inl resp => ({| world := w; wire := l ++ [x] |}, Normal resp)
    | inr error =>
        ({| world := if response_status_is error 401 then clear_session w else w;
            wire := l ++ [x] |}, Thrown error)
    end.
Proof.
  unfold request, responseInterceptor. eff_simpl.
  destruct (settle _) as [resp|error]; [done|].
  destruct (response_status_is error 401); [|done].
  state_simpl. by fold_clear.
Qed.

Lemma settle_resolved (reply : Reply A) resp :
  settle reply = inl resp ->
  exists st, reply = Http st (data resp) /\ validateStatus st = true /\ status resp = st.
Proof.
  destruct reply as [st d|m]; cbn; [|done].
  destruct (validateStatus st) eqn:Hv; [|done].
  intros [= <-]. by exists st.
Qed.

Lemma settle_rejected (reply : Reply A) error :
  settle reply = inr error ->
  response_status_is error 401 = bool_decide (reply_status reply = Some 401).
Proof.
  destruct reply as [st d|m]; cbn.
  - destruct (validateStatus st) eqn:Hv; [done|].
    intros [= <-]. unfold response_status_is; cbn.
    destruct (Z.eqb_spec st 401) as [->|Hne].
    + by rewrite bool_decide_eq_true_2.
    + rewrite bool_decide_eq_false_2; [done|congruence].
  - intros [= <-]. done.
Qed.
End Client.

Section Session.
Variable backend : Backend.
Variable JSON_stringify_user : User -> string.
Variable JSON_stringify_data : LoginData -> string.

Local Abbreviation exec := (perform backend JSON_stringify_user JSON_stringify_data).
Local Abbreviation profile_exchange w :=
  (exchange (profile_endpoint backend) (profile_request w)).

(** ** Big-step form of the operations *)

(** The best-effort profile fetch never throws; it sets the profile on a
    positive answer and otherwise leaves the state to the interceptor. *)
Lemma fetch_profile_run {E} w l :
  @fetch_profile backend E {| world := w; wire := l |} =
    ({| world := after_profile backend w; wire := l ++ [profile_exchange w] |},
     Normal tt).
Proof.
  unfold fetch_profile, after_profile. eff_unfold. rewrite request_run.
  fold profile_url. fold (profile_request w).
  destruct (settle _) as [resp|error]; [|done].
  by destruct (profile_success _ && present _).
Qed.

Lemma signOut_run {E} w :
  final (@signOut backend E) w = clear_session w
  /\ outcome (@signOut backend E) w = Normal tt.
Proof.
  unfold signOut. eff_unfold. rewrite request_run.
  destruct (settle _) as [resp|error]; state_simpl; fold_clear; [done|].
  destruct (response_status_is error 401); state_simpl; [|done].
  split; [apply clear_session_idem|done].
Qed.

Lemma signIn_run email password w l :
  let w0 := with_common (delete "Authorization") w in
  let original := common w !! "Authorization" in
  let x := exchange (login_endpoint backend) (login_request w email password) in
  signIn backend JSON_stringify_user JSON_stringify_data email password
      {| world := w; wire := l |} =
    match settle (login_endpoint backend (login_request w email password)) with
    | inl resp =>
        if truthy (find_token (data resp)) then
          let w1 := signed_in JSON_stringify_user (template (find_token (data resp)))
                      (default (placeholder_user email) (login_user (data resp))) w0 in
          ({| world := after_profile backend w1;
              wire := (l ++ [x]) ++ [profile_exchange w1] |}, Normal tt)
        else
          ({| world := restore_header original w0; wire := l ++ [x] |},
           Thrown (classify JSON_stringify_data
                     (Error "Login failed - no token in response")))
    | inr error =>
        ({| world := restore_header original
                       (if response_status_is error 401 then clear_session w0 else w0);
            wire := l ++ [x] |},
         Thrown (classify JSON_stringify_data error))
    end.
Proof.
  unfold signIn. eff_simpl. rewrite request_run.
  fold login_url. fold (login_request w email password).
  destruct (settle _) as [resp|error]; state_simpl.
  - destruct (truthy (find_token (data resp))); state_simpl.
    + by rewrite fetch_profile_run.
    + unfold restore_header. by destruct (truthy (common w !! "Authorization")).
  - unfold restore_header. by destruct (truthy (common w !! "Authorization")).
Qed.

Lemma checkAuth_run {E} w l :
  let x := exchange (check_auth_endpoint backend) (check_auth_request w) in
  @checkAuth backend E {| world := w; wire := l |} =
    if truthy (stored_token (localStorage w)) then
      match settle (check_auth_endpoint backend (check_auth_request w)) with
      | inl resp =>
          if authenticated (data resp) && present (check_user (data resp)) then
            let w1 := with_isAuthenticated true
                        (with_user (check_user (data resp)) (verifying w)) in
            ({| world := with_loading false (after_profile backend w1);
                wire := (l ++ [x]) ++ [profile_exchange w1] |}, Normal tt)
          else
            ({| world := with_loading false (clear_session (verifying w));
                wire := l ++ [x] |}, Normal tt)
      | inr error =>
          ({| world := with_loading false (clear_session (verifying w));
              wire := l ++ [x] |}, Normal tt)
      end
    else
      ({| world := with_isAuthenticated false (with_loading false w); wire := l |},
       Normal tt).
Proof.
  unfold checkAuth. eff_simpl.
  destruct (truthy (stored_token (localStorage w))); state_simpl; [|done].
  rewrite request_run. fold check_auth_url. fold (verifying w).
  fold (check_auth_request w).
  destruct (settle _) as [resp|error]; state_simpl.
  - destruct (authenticated (data resp) && present (check_user (data resp))); state_simpl.
    + by rewrite fetch_profile_run.
    + by fold_clear.
  - fold_clear. destruct (response_status_is error 401); state_simpl; [|done].
    by rewrite clear_session_idem.
Qed.

(** ** How a reply settles *)

Lemma exchange_resolved {A} (endpoint : Config -> Reply A) config resp :
  settle (endpoint config) = inl resp ->
  answered (exchange endpoint config) <> Some 401.
Proof.
  intros (st & Hreply & Hvalid%validateStatus_401 & _)%settle_resolved.
  unfold exchange. cbn. rewrite Hreply. cbn. congruence.
Qed.

Lemma exchange_rejected {A} (endpoint : Config -> Reply A) config error :
  settle (endpoint config) = inr error ->
  response_status_is error 401
    = bool_decide (answered (exchange endpoint config) = Some 401).
Proof. apply settle_rejected. Qed.

(** The profile fetch either clears the session, on a 401, or touches
    nothing but the profile. *)
Lemma after_profile_unauthorized w :
  answered (profile_exchange w) = Some 401 ->
  after_profile backend w = clear_session w.
Proof.
  intros H401. unfold after_profile.
  destruct (settle _) as [resp|error] eqn:Hs.
  - by apply exchange_resolved in Hs.
  - by rewrite (exchange_rejected _ _ _ Hs), bool_decide_eq_true_2.
Qed.

Lemma after_profile_authorized w :
  answered (profile_exchange w) <> Some 401 ->
  after_profile backend w = w
  \/ exists p, after_profile backend w = with_profile (Some p) w.
Proof.
  intros H401. unfold after_profile.
  destruct (settle _) as [resp|error] eqn:Hs.
  - destruct (profile_data (data resp)) as [p|]; rewrite ?andb_false_r; [|by left].
    destruct (profile_success (data resp)); [right; by exists p|by left].
  - rewrite (exchange_rejected _ _ _ Hs), bool_decide_eq_false_2 by done. by left.
Qed.

(** ** signOut *)

(** C7. [signOut] clears token storage (both token keys and the stored
    user), the default Authorization header and the in-memory session
    (user, profile, isAuthenticated), whatever the logout call did: for
    every backend the final state is the cleared form of the initial one,
    and [signOut] itself completes normally. *)
Theorem signOut_always_clears (E : Type) (w : World) :
  let w' := final (@signOut backend E) w in
  w' = clear_session w
  /\ localStorage w' !! "admin_token" = None
  /\ localStorage w' !! "token" = None
  /\ localStorage w' !! "user" = None
  /\ common w' !! "Authorization" = None
  /\ user w' = None /\ profile w' = None /\ isAuthenticated w' = false
  /\ outcome (@signOut backend E) w = Normal tt.
Proof.
  intros w'. subst w'. destruct (@signOut_run E w) as [-> Hout].
  destruct (clear_session_removed w) as [HA HT].
  destruct (clear_session_reset w) as (HU & HP & HI).
  split_and!; try assumption; try reflexivity.
  - destruct w. apply lookup_delete_eq.
  - destruct w. apply lookup_delete_eq.
Qed.

(** ** The 401 interceptor *)

(** Whatever request goes through the shared client, a 401 answer leaves
    the session cleared before the caller sees the error. *)
Lemma request_unauthorized {A} (endpoint : Config -> Reply A) method url body w :
  reply_status (endpoint (outgoing w method url body)) = Some 401 ->
  final (request endpoint method url body) w = clear_session w.
Proof.
  intros H401. unfold final, run. rewrite request_run.
  destruct (settle _) as [resp|error] eqn:Hs; state_simpl.
  - by apply exchange_resolved in Hs.
  - by rewrite (exchange_rejected _ _ _ Hs), bool_decide_eq_true_2.
Qed.

(** The header restoration and the loading flag do not touch what a
    cleared session is about. *)
Lemma cleared_clear_session w : cleared (clear_session w).
Proof. split; [apply clear_session_reset|apply clear_session_removed]. Qed.

Lemma cleared_restore_header o w : cleared w -> cleared (restore_header o w).
Proof. unfold restore_header. destruct (truthy o); [|done]. by destruct w. Qed.

Lemma cleared_with_loading b w : cleared w -> cleared (with_loading b w).
Proof. by destruct w. Qed.

Ltac log_cases :=
  repeat match goal with
  | H : _ ∈ (_ ++ _)%list |- _ => apply elem_of_app in H as [H|H]
  | H : _ ∈ [] |- _ => by apply elem_of_nil in H
  | H : _ ∈ [_] |- _ => apply list_elem_of_singleton in H; subst
  end.

(** C1. Whichever operation is running, if any request it sent through the
    shared client was answered with status 401, then once the operation
    has finished the session is reset (user = null, profile = null,
    isAuthenticated = false) and neither token key is in storage. *)
Theorem unauthorized_response_resets_session (op : Operation) (w : World) (x : Exchange) :
  x ∈ log (exec op) w ->
  answered x = Some 401 ->
  let w' := final (exec op) w in
  session_reset w' /\ token_removed w'.
Proof.
  destruct op as [email password| | |]; cbn [perform]; intros Hx H401; cbv zeta.
  - unfold final, log, run in *. rewrite signIn_run in *. cbv zeta in *.
    destruct (settle _) as [resp|error] eqn:Hs.
    + destruct (truthy (find_token (data resp))); state_simpl; log_cases.
      * by apply exchange_resolved in Hs.
      * rewrite after_profile_unauthorized by done. apply cleared_clear_session.
      * by apply exchange_resolved in Hs.
    + state_simpl. log_cases.
      rewrite (exchange_rejected _ _ _ Hs), bool_decide_eq_true_2 by done.
      apply cleared_restore_header, cleared_clear_session.
  - destruct (@signOut_run (JsError LoginData) w) as [-> _].
    apply cleared_clear_session.
  - unfold final, log, run in *. rewrite checkAuth_run in *. cbv zeta in *.
    destruct (truthy (stored_token (localStorage w))); [|state_simpl; by log_cases].
    destruct (settle _) as [resp|error] eqn:Hs.
    + destruct (authenticated _ && present _); state_simpl; log_cases.
      * by apply exchange_resolved in Hs.
      * rewrite after_profile_unauthorized by done.
        apply cleared_with_loading, cleared_clear_session.
      * apply cleared_with_loading, cleared_clear_session.
    + state_simpl. apply cleared_with_loading, cleared_clear_session.
  - unfold refreshProfile, final, log, run in *. rewrite fetch_profile_run in *.
    state_simpl. log_cases.
    rewrite after_profile_unauthorized by done. apply cleared_clear_session.
Qed.

(** ** The session invariant *)

(** Every header the component writes has the bearer form, and that form
    passes the component's own test. *)
Lemma bearer_truthy t : truthy (Some ("Bearer " ++ t)) = true.
Proof. reflexivity. Qed.

Lemma truthy_template o : truthy o = true -> Some (template o) = o.
Proof. by destruct o. Qed.

Lemma truthy_nonempty tok : tok <> "" -> truthy (Some tok) = true.
Proof. intros Hne. unfold truthy. by destruct (String.eqb_spec tok ""). Qed.

Lemma invariant_unauthenticated w : isAuthenticated w = false -> invariant w.
Proof. unfold invariant. congruence. Qed.

Lemma invariant_clear_session w : invariant (clear_session w).
Proof. apply invariant_unauthenticated. by destruct w. Qed.

Lemma invariant_with_profile p w : invariant w -> invariant (with_profile p w).
Proof. by destruct w. Qed.

Lemma invariant_with_loading b w : invariant w -> invariant (with_loading b w).
Proof. by destruct w. Qed.

Lemma invariant_after_profile w : invariant w -> invariant (after_profile backend w).
Proof.
  intros Hw. unfold after_profile. destruct (settle _) as [resp|error].
  - destruct (_ && _); [by apply invariant_with_profile|done].
  - destruct (response_status_is error 401); [apply invariant_clear_session|done].
Qed.

Lemma signed_in_state token userData w :
  let w' := signed_in JSON_stringify_user token userData w in
  localStorage w' !! "admin_token" = Some token
  /\ localStorage w' !! "token" = Some token
  /\ localStorage w' !! "user" = Some (JSON_stringify_user userData)
  /\ common w' !! "Authorization" = Some ("Bearer " ++ token)
  /\ user w' = Some userData
  /\ isAuthenticated w' = true.
Proof.
  destruct w as [ls hd u p ld a]. unfold signed_in. state_simpl.
  split_and!; try apply lookup_insert_eq; try reflexivity.
  - rewrite !lookup_insert_ne by discriminate. apply lookup_insert_eq.
  - rewrite lookup_insert_ne by discriminate. apply lookup_insert_eq.
Qed.

Lemma invariant_signed_in token userData w :
  truthy (Some token) = true ->
  invariant (signed_in JSON_stringify_user token userData w).
Proof.
  intros Ht _. destruct (signed_in_state token userData w) as (HA & _ & _ & HH & _).
  unfold token_in_storage, default_header_set, stored_token, js_or.
  rewrite HA, HH, Ht. split; [done|apply bearer_truthy].
Qed.

Lemma invariant_verified u w :
  truthy (stored_token (localStorage w)) = true ->
  invariant (with_isAuthenticated true (with_user u (verifying w))).
Proof.
  intros Ht _. destruct w as [ls hd u0 p ld a]. split; [exact Ht|].
  unfold default_header_set, verifying. state_simpl.
  rewrite lookup_insert_eq. apply bearer_truthy.
Qed.

(** After a failed [signIn] the header the invariant needs is back. *)
Lemma invariant_restore_header w :
  invariant w ->
  invariant (restore_header (common w !! "Authorization")
               (with_common (delete "Authorization") w)).
Proof.
  intros Hw. destruct w as [ls hd u p ld a]. unfold invariant, restore_header in *.
  unfold token_in_storage, default_header_set in *. state_simpl.
  destruct (truthy (hd !! "Authorization")) eqn:Hh; state_simpl;
    intros Ha; destruct (Hw Ha) as [Ht Hh']; [|done].
  split; [done|]. rewrite lookup_insert_eq. by rewrite truthy_template.
Qed.

Lemma isAuthenticated_restore_header o w :
  isAuthenticated (restore_header o w) = isAuthenticated w.
Proof. unfold restore_header. destruct (truthy o); by destruct w. Qed.

Lemma signIn_invariant email password w :
  invariant w ->
  invariant (final (signIn backend JSON_stringify_user JSON_stringify_data
                      email password) w).
Proof.
  intros Hw. unfold final, run. rewrite signIn_run. cbv zeta.
  destruct (settle _) as [resp|error].
  - destruct (truthy (find_token (data resp))) eqn:Ht; state_simpl.
    + apply invariant_after_profile, invariant_signed_in.
      by rewrite truthy_template.
    + by apply invariant_restore_header.
  - state_simpl. destruct (response_status_is error 401).
    + apply invariant_unauthenticated.
      rewrite isAuthenticated_restore_header. by destruct w.
    + by apply invariant_restore_header.
Qed.

(** [checkAuth] establishes the invariant from any state. *)
Lemma checkAuth_invariant {E} w : invariant (final (@checkAuth backend E) w).
Proof.
  unfold final, run. rewrite checkAuth_run. cbv zeta.
  destruct (truthy (stored_token (localStorage w))) eqn:Ht.
  - destruct (settle _) as [resp|error]; [destruct (_ && _)|]; state_simpl;
      apply invariant_with_loading;
      (apply invariant_clear_session
       || by apply invariant_after_profile, invariant_verified).
  - state_simpl. apply invariant_unauthenticated. by destruct w.
Qed.

Lemma operation_invariant op w : invariant w -> invariant (final (exec op) w).
Proof.
  intros Hw. destruct op as [email password| | |]; cbn [perform].
  - by apply signIn_invariant.
  - destruct (@signOut_run (JsError LoginData) w) as [-> _].
    apply invariant_clear_session.
  - apply checkAuth_invariant.
  - unfold refreshProfile, final, run. rewrite fetch_profile_run.
    by apply invariant_after_profile.
Qed.

Lemma initialize_invariant {E} w : invariant (final (@initialize backend E) w).
Proof.
  unfold initialize, final, run. eff_simpl.
  destruct (truthy (stored_token (localStorage w))); state_simpl;
    apply (@checkAuth_invariant E).
Qed.

(** C3. If [isAuthenticated] implies that a token is in storage and the
    default Authorization header is set, then the same holds after
    [signIn], [signOut], [checkAuth] and [refreshProfile], for every
    backend, and after the response interceptor has handled any error. *)
Theorem invariant_preserved (w : World) :
  invariant w ->
  (forall op, invariant (final (exec op) w))
  /\ (forall A (error : JsError A), invariant (final (responseInterceptor error) w)).
Proof.
  intros Hw. split.
  - intros op. by apply operation_invariant.
  - intros A error. unfold final, run, responseInterceptor. eff_simpl.
    destruct (response_status_is error 401); state_simpl; [|done].
    fold_clear. apply invariant_clear_session.
Qed.

(** ** refreshProfile *)

(** A 401 on the profile fetch clears the session, the flag included. *)
Lemma refreshProfile_unauthorized (E : Type) (w : World) :
  reply_status (profile_endpoint backend (profile_request w)) = Some 401 ->
  final (@refreshProfile backend E) w = clear_session w.
Proof.
  intros H401. unfold refreshProfile, final, run. rewrite fetch_profile_run.
  by apply after_profile_unauthorized.
Qed.

(** C8, amended. Unless the profile fetch is answered with status 401,
    [refreshProfile] leaves [isAuthenticated] as it was: a positive answer
    (success with data) overwrites the in-memory profile and nothing else,
    any other answer or failure changes nothing; [refreshProfile] never
    throws. *)
Theorem refreshProfile_keeps_flag (E : Type) (w : World) :
  let reply := profile_endpoint backend (profile_request w) in
  reply_status reply <> Some 401 ->
  let w' := final (@refreshProfile backend E) w in
  isAuthenticated w' = isAuthenticated w
  /\ outcome (@refreshProfile backend E) w = Normal tt
  /\ match settle reply with
     | inl resp =>
         if profile_success (data resp) && present (profile_data (data resp))
         then w' = with_profile (profile_data (data resp)) w
         else w' = w
     | inr _ => w' = w
     end.
Proof.
  intros reply H401 w'. subst w'.
  unfold refreshProfile, final, outcome, run. rewrite fetch_profile_run.
  state_simpl. unfold after_profile. fold reply.
  destruct (settle reply) as [resp|error] eqn:Hs.
  - destruct (_ && _); [|done]. by destruct w.
  - by rewrite (settle_rejected _ _ Hs), bool_decide_eq_false_2.
Qed.

(** ** checkAuth *)

(** C9. With a token in storage, a verification response of the 200 range
    that carries no user is handled as a failure, whatever its
    [authenticated] field says: both token keys are removed from storage
    and the session is reset (user = null, profile = null,
    isAuthenticated = false), exactly as for a response whose
    [authenticated] field is false; the profile is not fetched, loading
    ends and [checkAuth] does not throw. *)
Theorem checkAuth_without_user (E : Type) (w : World) (st : Z) (d : CheckAuthData) :
  truthy (stored_token (localStorage w)) = true ->
  check_auth_endpoint backend (check_auth_request w) = Http st d ->
  validateStatus st = true ->
  check_user d = None ->
  let w' := final (@checkAuth backend E) w in
  w' = with_loading false (clear_session (verifying w))
  /\ localStorage w' !! "admin_token" = None
  /\ localStorage w' !! "token" = None
  /\ user w' = None /\ profile w' = None /\ isAuthenticated w' = false
  /\ loading w' = false
  /\ length (log (@checkAuth backend E) w) = 1%nat
  /\ outcome (@checkAuth backend E) w = Normal tt.
Proof.
  intros Ht Hreply Hst Hu w'. subst w'.
  unfold final, log, outcome, run. rewrite checkAuth_run. cbv zeta.
  rewrite Ht, Hreply. unfold settle. rewrite Hst. state_simpl.
  rewrite Hu, andb_false_r. state_simpl.
  destruct (cleared_clear_session (verifying w)) as [(HU & HP & HA) [HT1 HT2]].
  destruct (clear_session _) as [ls hd u p ld a]. by state_simpl.
Qed.

(** ** signIn *)

(** The search order: a usable top-level token wins, the user's
    [api_token] is the fallback. *)
Lemma find_token_order d tok :
  tok <> "" ->
  login_token d = Some tok
  \/ (truthy (login_token d) = false /\ login_user d ≫= u_api_token = Some tok) ->
  find_token d = Some tok.
Proof.
  intros Hne%truthy_nonempty [Htop|[Hno Hnested]]; unfold find_token.
  - by rewrite Htop, Hne.
  - by rewrite Hno, Hnested, Hne.
Qed.


(** C4, amended. When the login response (200 range) has a non-empty
    top-level [token], or has no usable top-level token but a non-empty
    [user.api_token], and no request of this [signIn] is answered with
    401, then after [signIn] exactly that value is stored under both token
    keys and in the default header, [isAuthenticated] is true, the user is
    the server's (or the placeholder), and [signIn] returns normally. *)
Theorem signIn_persists_extracted_token
    (w : World) (email password : string) (st : Z) (d : LoginData) (tok : string) :
  login_endpoint backend (login_request w email password) = Http st d ->
  validateStatus st = true ->
  login_token d = Some tok
  \/ (truthy (login_token d) = false /\ login_user d ≫= u_api_token = Some tok) ->
  tok <> "" ->
  (forall x, x ∈ log (exec (SignIn email password)) w -> answered x <> Some 401) ->
  let w' := final (exec (SignIn email password)) w in
  localStorage w' !! "admin_token" = Some tok
  /\ localStorage w' !! "token" = Some tok
  /\ common w' !! "Authorization" = Some ("Bearer " ++ tok)
  /\ isAuthenticated w' = true
  /\ user w' = Some (default (placeholder_user email) (login_user d))
  /\ outcome (exec (SignIn email password)) w = Normal tt.
Proof.
  intros Hreply Hst Hwhere Hne Hlog w'. subst w'.
  pose proof (find_token_order d tok Hne Hwhere) as Hfind.
  cbn [perform] in *. unfold final, log, outcome, run in *.
  rewrite signIn_run in *. cbv zeta in *.
  rewrite Hreply in *. unfold settle in *. rewrite Hst in *. state_simpl.
  rewrite Hfind in *. rewrite (truthy_nonempty tok Hne) in *. state_simpl.
  change (template (Some tok)) with tok in *.
  set (w1 := signed_in _ tok _ _) in *.
  destruct (signed_in_state tok (default (placeholder_user email) (login_user d))
              (with_common (delete "Authorization") w))
    as (HA & HT & _ & HH & HU & HI).
  fold w1 in HA, HT, HH, HU, HI.
  assert (H401 : answered (profile_exchange w1) <> Some 401).
  { apply Hlog. apply elem_of_app. right. by apply list_elem_of_singleton. }
  destruct (after_profile_authorized w1 H401) as [->|[p ->]]; [done|].
  destruct w1. by state_simpl.
Qed.


End Session.

(** The invariant holds in every state the provider reaches, whatever the
    storage and the client's defaults held when it was mounted. *)
Lemma reachable_invariant storage defaults w :
  reachable storage defaults w -> invariant w.
Proof.
  induction 1 as [backend|backend ju jd op w _ IH].
  - apply initialize_invariant.
  - by apply operation_invariant.
Qed.

(** ** The request interceptor *)

(** C2, amended. The request interceptor sets the Authorization header to
    the bearer form of the stored token exactly when a usable token is in
    storage and the request has a headers object, and it does so whether
    or not the caller had set that header, replacing the caller's value;
    every other header, the method, the url and the body are untouched.
    Without a usable token (or without a headers object) the request
    passes unchanged, so a caller-set header survives only then. *)
Theorem requestInterceptor_injects_token (storage : gmap string string) (config : Config) :
  let config' := requestInterceptor storage config in
  method config' = method config /\ url config' = url config /\ body config' = body config
  /\ (forall h tok,
        headers config = Some h -> stored_token storage = Some tok -> tok <> "" ->
        headers config' = Some (<["Authorization" := "Bearer " ++ tok]> h)
        /\ (forall k, k <> "Authorization" ->
              headers config' ≫= (.!! k) = headers config ≫= (.!! k)))
  /\ (truthy (stored_token storage) = false \/ headers config = None -> config' = config).
Proof.
  assert (Hempty : forall tok, stored_token storage = Some tok -> tok <> "" ->
            truthy (stored_token storage) = true).
  { intros tok -> Hne. unfold truthy. by destruct (String.eqb_spec tok ""). }
  unfold requestInterceptor. destruct config as [m u [h|] b]; cbn [headers method url body].
  - destruct (truthy (stored_token storage)) eqn:Ht; cbn [headers method url body].
    + split_and!; try done.
      * intros h' tok [= <-] Htok _. rewrite Htok. split; [done|].
        intros k Hk. cbn. by rewrite lookup_insert_ne.
      * intros [|]; done.
    + split_and!; try done.
      intros h' tok _ Htok Hne. by specialize (Hempty tok Htok Hne).
  - split_and!; done.
Qed.

(** ** The standalone helpers *)


Lemma spread_over_lookup (base : gmap string string) extra k :
  spread_over base extra !! k =
    match extra ≫= (.!! k) with
    | Some v => Some v
    | None => base !! k
    end.
Proof.
  destruct extra as [h|]; cbn; [|done].
  rewrite lookup_union. by destruct (h !! k), (base !! k).
Qed.


(** * The scenarios, run *)

(** C2, as stated, fails: with token [abc123] in storage, a request whose
    caller set [Authorization: Basic dXNlcjpwdw] leaves with the bearer
    header instead. *)
Lemma requestInterceptor_replaces_caller_header :
  let storage : gmap string string := <["admin_token" := "abc123"]> ∅ in
  let config :=
    {| method := "GET"; url := "/api/admin/employees";
       headers := Some (<["Authorization" := "Basic dXNlcjpwdw"]> ∅);
       body := NoBody |} in
  headers config ≫= (.!! "Authorization") = Some "Basic dXNlcjpwdw"
  /\ headers (requestInterceptor storage config) ≫= (.!! "Authorization")
       = Some "Bearer abc123"
  /\ headers (requestInterceptor storage config) <> headers config.
Proof.
  intros storage config.
  assert (Hafter : headers (requestInterceptor storage config) ≫= (.!! "Authorization")
                   = Some "Bearer abc123") by (vm_compute; reflexivity).
  split_and!; [vm_compute; reflexivity|exact Hafter|].
  intros Heq. rewrite Heq in Hafter. vm_compute in Hafter. discriminate.
Qed.

Lemma requestInterceptor_injects_token_witness :
  let storage : gmap string string := <["admin_token" := "abc123"]> ∅ in
  let config :=
    {| method := "GET"; url := "/api/admin/employees";
       headers := Some (<["Accept" := "application/json"]> ∅);
       body := NoBody |} in
  headers (requestInterceptor storage config)
    = Some (<["Authorization" := "Bearer abc123"]> (<["Accept" := "application/json"]> ∅))
  /\ requestInterceptor ∅ config = config.
Proof.
  intros storage config.
  destruct (requestInterceptor_injects_token storage config) as (_ & _ & _ & Hset & _).
  destruct (requestInterceptor_injects_token ∅ config) as (_ & _ & _ & _ & Hkeep).
  split.
  - apply (Hset (<["Accept" := "application/json"]> ∅) "abc123");
      [reflexivity|vm_compute; reflexivity|discriminate].
  - apply Hkeep. left. vm_compute. reflexivity.
Defined.



(** C8, as stated, fails: with an authenticated session and a profile
    endpoint that answers 401, [refreshProfile] ends with
    [isAuthenticated = false] and the token gone. *)
Lemma refreshProfile_clears_flag_on_401 :
  let w' := final (@refreshProfile expired_backend unit) authenticated_world in
  isAuthenticated authenticated_world = true
  /\ isAuthenticated w' = false
  /\ isAuthenticated w' <> isAuthenticated authenticated_world
  /\ localStorage w' !! "admin_token" = None.
Proof. vm_compute. split_and!; (reflexivity || discriminate). Qed.

Lemma refreshProfile_keeps_flag_witness :
  let w' := final (@refreshProfile healthy_backend unit) authenticated_world in
  reply_status (profile_endpoint healthy_backend (profile_request authenticated_world))
    <> Some 401
  /\ isAuthenticated w' = true
  /\ w' = with_profile (Some admin_profile) authenticated_world.
Proof.
  assert (H401 : reply_status (profile_endpoint healthy_backend
                                 (profile_request authenticated_world)) <> Some 401)
    by discriminate.
  destruct (refreshProfile_keeps_flag healthy_backend unit authenticated_world H401)
    as (Hflag & _ & Hstate).
  split_and!; [exact H401|exact Hflag|exact Hstate].
Defined.

(** C4, as stated, fails twice over.  A top-level token [abc123] followed
    by a 401 on the profile fetch: [signIn] returns normally, yet nothing
    is stored and [isAuthenticated] is false.  And a top-level token that
    is the empty string: the user's [api_token] is stored instead. *)
Lemma signIn_token_not_kept :
  (let run_it := signIn expired_backend render_user render_data "a@x.com" "pw" in
   login_token login_with_token = Some "abc123"
   /\ outcome run_it fresh_world = Normal tt
   /\ isAuthenticated (final run_it fresh_world) = false
   /\ localStorage (final run_it fresh_world) !! "admin_token" = None
   /\ localStorage (final run_it fresh_world) !! "token" = None)
  /\ (let run_it := signIn empty_token_backend render_user render_data "a@x.com" "pw" in
      login_token login_with_empty_token = Some ""
      /\ localStorage (final run_it fresh_world) !! "admin_token" = Some "xyz789"
      /\ localStorage (final run_it fresh_world) !! "admin_token" <> Some "").
Proof. vm_compute. split_and!; (reflexivity || discriminate). Qed.

Lemma signIn_persists_extracted_token_witness :
  let w' := final (perform healthy_backend render_user render_data
                     (SignIn "a@x.com" "pw")) fresh_world in
  login_token login_with_token = Some "abc123"
  /\ localStorage w' !! "admin_token" = Some "abc123"
  /\ localStorage w' !! "token" = Some "abc123"
  /\ common w' !! "Authorization" = Some "Bearer abc123"
  /\ isAuthenticated w' = true.
Proof.
  assert (Hlog : Forall (fun x => answered x <> Some 401)
                   (log (perform healthy_backend render_user render_data
                           (SignIn "a@x.com" "pw")) fresh_world))
    by (vm_compute; repeat constructor; discriminate).
  rewrite Forall_forall in Hlog.
  destruct (signIn_persists_extracted_token healthy_backend render_user render_data
              fresh_world "a@x.com" "pw" 200 login_with_token "abc123")
    as (HA & HT & HH & HI & _); [reflexivity|reflexivity|by left|discriminate|exact Hlog|].
  split_and!; [reflexivity|exact HA|exact HT|exact HH|exact HI].
Defined.

(** C6 fails on the code.  For the login response [{success:true}] the
    error [signIn] throws is the bare text, whatever [JSON.stringify]
    would have rendered: the payload is not in it. *)
Theorem signIn_no_token_error_lacks_payload
    (JSON_stringify_user : User -> string) (JSON_stringify_data : LoginData -> string) :
  outcome (signIn tokenless_backend JSON_stringify_user JSON_stringify_data "a@x.com" "pw")
          fresh_world
    = Thrown (Error "Login failed - no token in response.")
  /\ includes (render_data login_without_token)
       "Login failed - no token in response." = false.
Proof. vm_compute. split; reflexivity. Qed.


Lemma checkAuth_without_user_witness :
  let w' := final (@checkAuth tokenless_backend unit) authenticated_world in
  truthy (stored_token (localStorage authenticated_world)) = true
  /\ localStorage w' !! "admin_token" = None
  /\ localStorage w' !! "token" = None
  /\ user w' = None /\ profile w' = None /\ isAuthenticated w' = false.
Proof.
  assert (Ht : truthy (stored_token (localStorage authenticated_world)) = true)
    by (vm_compute; reflexivity).
  destruct (checkAuth_without_user tokenless_backend unit authenticated_world 200
              {| authenticated := true; check_user := None |})
    as (_ & HA & HT & HU & HP & HI & _); [exact Ht|reflexivity..|].
  split_and!; [exact Ht|exact HA|exact HT|exact HU|exact HP|exact HI].
Defined.

Lemma unauthorized_response_resets_session_witness :
  let op := RefreshProfile in
  let x := {| sent := profile_request authenticated_world; answered := Some 401 |} in
  let w' := final (perform expired_backend render_user render_data op) authenticated_world in
  x ∈ log (perform expired_backend render_user render_data op) authenticated_world
  /\ session_reset w' /\ token_removed w'.
Proof.
  intros op x w'.
  assert (Hx : x ∈ log (perform expired_backend render_user render_data op)
                   authenticated_world)
    by (vm_compute; constructor).
  split; [exact Hx|].
  exact (unauthorized_response_resets_session expired_backend render_user render_data
           op authenticated_world x Hx eq_refl).
Defined.

Lemma invariant_preserved_witness :
  invariant authenticated_world
  /\ invariant (final (perform expired_backend render_user render_data CheckAuth)
                  authenticated_world)
  /\ invariant (final (perform healthy_backend render_user render_data
                         (SignIn "a@x.com" "pw")) authenticated_world).
Proof.
  assert (Hinv : invariant authenticated_world)
    by (intros _; split; vm_compute; reflexivity).
  destruct (invariant_preserved expired_backend render_user render_data
              authenticated_world Hinv) as [Hexpired _].
  destruct (invariant_preserved healthy_backend render_user render_data
              authenticated_world Hinv) as [Hhealthy _].
  split_and!; [exact Hinv|apply Hexpired|apply Hhealthy].
Defined.

(** * Further properties of the component *)

(** ** Token storage *)

(** X1. [getToken] after [setToken t] returns [t], for every [t]; both keys
    and the default header carry it.  [getToken] after [removeToken]
    returns nothing, and the stored user and the header are gone too. *)
Theorem token_store_round_trip (E : Type) (t : string) (w : World) :
  outcome (@setToken E t;; getToken) w = Normal (Some t)
  /\ localStorage (final (@setToken E t) w) !! "admin_token" = Some t
  /\ localStorage (final (@setToken E t) w) !! "token" = Some t
  /\ common (final (@setToken E t) w) !! "Authorization" = Some ("Bearer " ++ t)
  /\ outcome (@removeToken E;; getToken) w = Normal None
  /\ outcome (@setToken E t;; removeToken;; getToken) w = Normal None
  /\ localStorage (final (@removeToken E) w) !! "user" = None
  /\ common (final (@removeToken E) w) !! "Authorization" = None.
Proof.
  destruct w as [ls hd u p ld a]. eff_simpl. unfold stored_token, js_or.
  rewrite !lookup_delete_eq.
  rewrite !(lookup_delete_ne _ "user") by discriminate.
  rewrite !lookup_delete_eq.
  rewrite !(lookup_delete_ne _ "token" "admin_token") by discriminate.
  rewrite !lookup_delete_eq.
  rewrite !lookup_insert_eq.
  rewrite !(lookup_insert_ne _ "token" "admin_token") by discriminate.
  rewrite !lookup_insert_eq.
  split_and!; try reflexivity.
  by destruct (truthy (Some t)).
Qed.

(** X2. The lookup order of [getToken]: a non-empty [admin_token] wins; when
    it is missing or empty, whatever is under [token] is returned. *)
Theorem stored_token_precedence (storage : gmap string string) :
  (forall a, storage !! "admin_token" = Some a -> a <> "" ->
     stored_token storage = Some a)
  /\ (storage !! "admin_token" = None \/ storage !! "admin_token" = Some "" ->
      stored_token storage = storage !! "token").
Proof.
  unfold stored_token, js_or. split.
  - intros a -> Hne. unfold truthy. by destruct (String.eqb_spec a "").
  - by intros [->| ->].
Qed.

(** ** The request interceptor, again *)

(** X3. Running the request interceptor twice is the same as running it once,
    so a second registration of the same handler changes nothing. *)
Theorem requestInterceptor_idempotent (storage : gmap string string) (config : Config) :
  requestInterceptor storage (requestInterceptor storage config)
    = requestInterceptor storage config.
Proof.
  unfold requestInterceptor. destruct config as [m u [h|] b]; cbn [headers]; [|done].
  destruct (truthy (stored_token storage)) eqn:Ht; cbn [headers method url body].
  - by rewrite insert_insert_eq.
  - done.
Qed.

(** What a request carries when it leaves the shared client: the bearer
    form of the stored token if a usable one is stored, and the default
    header otherwise. *)
Lemma outgoing_authorization w method url body :
  authorization (outgoing w method url body)
    = if truthy (stored_token (localStorage w))
      then Some ("Bearer " ++ template (stored_token (localStorage w)))
      else common w !! "Authorization".
Proof.
  unfold authorization, outgoing, requestInterceptor. cbn [headers].
  destruct (truthy _); cbn [headers mbind option_bind]; [|done].
  apply lookup_insert_eq.
Qed.

(** ** The standalone helpers, again *)


(** X5. With a usable token in storage, all three helpers send it in bearer
    form (for [authFetch]: unless the caller passes an Authorization of
    their own), which is also what the request interceptor puts on the
    shared client's requests. *)
Theorem helpers_send_stored_token
    (storage : gmap string string) (tok : string) (url : string)
    (options : RequestInit) (config : Config) (h : gmap string string) :
  stored_token storage = Some tok ->
  tok <> "" ->
  init_headers options ≫= (.!! "Authorization") = None ->
  headers config = Some h ->
  getAuthHeaders storage !! "Authorization" = Some ("Bearer " ++ tok)
  /\ config_headers (getAuthAxiosConfig storage) !! "Authorization"
       = Some ("Bearer " ++ tok)
  /\ init_headers (snd (authFetch storage url options)) ≫= (.!! "Authorization")
       = Some ("Bearer " ++ tok)
  /\ authorization (requestInterceptor storage config) = Some ("Bearer " ++ tok).
Proof.
  intros Htok Hne Hown Hh.
  unfold getAuthHeaders, getAuthAxiosConfig, authFetch, authorization, requestInterceptor.
  rewrite Hh, Htok, (truthy_nonempty tok Hne).
  cbn [snd init_headers config_headers headers mbind option_bind template].
  rewrite spread_over_lookup, Hown, !lookup_insert_eq.
  rewrite lookup_insert_ne by discriminate. by rewrite lookup_insert_eq.
Qed.

Section Coverage.
Variable backend : Backend.
Variable JSON_stringify_user : User -> string.
Variable JSON_stringify_data : LoginData -> string.

Local Abbreviation exec := (perform backend JSON_stringify_user JSON_stringify_data).
Local Abbreviation signIn' :=
  (signIn backend JSON_stringify_user JSON_stringify_data).

Ltac in_log :=
  repeat match goal with
  | H : _ ∈ (_ ++ _)%list |- _ => apply elem_of_app in H as [H|H]
  | H : _ ∈ [] |- _ => by apply elem_of_nil in H
  | H : _ ∈ [_] |- _ => apply list_elem_of_singleton in H; subst
  end.

(** The profile fetch either clears the session or touches the profile
    alone. *)
Lemma after_profile_frame w :
  (answered (exchange (profile_endpoint backend) (profile_request w)) = Some 401
   /\ after_profile backend w = clear_session w)
  \/ (answered (exchange (profile_endpoint backend) (profile_request w)) <> Some 401
      /\ exists p, after_profile backend w = with_profile p w).
Proof.
  destruct (decide (answered (exchange (profile_endpoint backend) (profile_request w))
                    = Some 401)) as [H401|H401].
  - left. split; [done|]. by apply after_profile_unauthorized.
  - right. split; [done|].
    destruct (after_profile_authorized backend w H401) as [->|[p ->]].
    + exists (profile w). by destruct w.
    + by exists (Some p).
Qed.

(** ** checkAuth, the other paths *)

(** X7. Without a usable stored token [checkAuth] sends no request at all: it
    ends loading, marks the session unauthenticated and leaves storage,
    headers, user and profile alone. *)
Theorem checkAuth_without_token (E : Type) (w : World) :
  truthy (stored_token (localStorage w)) = false ->
  let w' := final (@checkAuth backend E) w in
  log (@checkAuth backend E) w = []
  /\ w' = with_isAuthenticated false (with_loading false w)
  /\ loading w' = false /\ isAuthenticated w' = false
  /\ localStorage w' = localStorage w /\ common w' = common w
  /\ user w' = user w /\ profile w' = profile w
  /\ outcome (@checkAuth backend E) w = Normal tt.
Proof.
  intros Ht. unfold final, log, outcome, run. rewrite checkAuth_run. cbv zeta.
  rewrite Ht. by destruct w.
Qed.

(** X8. With a usable stored token and an affirmative verification (200
    range, [authenticated] true, a user), and no 401 on the profile fetch
    that follows, [checkAuth] ends authenticated with the server's user,
    loading over, storage untouched and the default header in the bearer
    form of the stored token, after exactly two requests. *)
Theorem checkAuth_affirmative (E : Type) (w : World) (st : Z) (d : CheckAuthData) (u : User) :
  truthy (stored_token (localStorage w)) = true ->
  check_auth_endpoint backend (check_auth_request w) = Http st d ->
  validateStatus st = true ->
  authenticated d = true ->
  check_user d = Some u ->
  (forall x, x ∈ log (@checkAuth backend E) w -> answered x <> Some 401) ->
  let w' := final (@checkAuth backend E) w in
  user w' = Some u /\ isAuthenticated w' = true /\ loading w' = false
  /\ localStorage w' = localStorage w
  /\ common w' !! "Authorization"
       = Some ("Bearer " ++ template (stored_token (localStorage w)))
  /\ length (log (@checkAuth backend E) w) = 2%nat
  /\ outcome (@checkAuth backend E) w = Normal tt.
Proof.
  intros Ht Hreply Hst Ha Hu Hlog. unfold final, log, outcome, run in *.
  rewrite checkAuth_run in *. cbv zeta in *.
  rewrite Ht, Hreply in *. unfold settle in *. rewrite Hst in *. state_simpl.
  rewrite Ha, Hu in *. state_simpl.
  set (w1 := with_isAuthenticated true _) in *.
  destruct (after_profile_frame w1) as [[H401 _]|[_ [p ->]]].
  - exfalso. apply (Hlog _ ltac:(apply elem_of_app; right; by apply list_elem_of_singleton)).
    exact H401.
  - subst w1. destruct w as [ls hd u0 p0 ld a]. unfold verifying. state_simpl.
    split_and!; try reflexivity. apply lookup_insert_eq.
Qed.

(** X9. Whatever the backend does and whatever state it starts from,
    [checkAuth] never throws and always ends loading; and it ends
    authenticated only if a token was stored and the verification request
    was answered in the 200 range with [authenticated] true and a user,
    who is then the session's user. *)
Theorem checkAuth_settles (E : Type) (w : World) :
  let w' := final (@checkAuth backend E) w in
  outcome (@checkAuth backend E) w = Normal tt
  /\ loading w' = false
  /\ (isAuthenticated w' = true ->
      truthy (stored_token (localStorage w)) = true
      /\ exists st d u,
           check_auth_endpoint backend (check_auth_request w) = Http st d
           /\ validateStatus st = true
           /\ authenticated d = true /\ check_user d = Some u
           /\ user w' = Some u).
Proof.
  unfold final, outcome, run. rewrite checkAuth_run. cbv zeta.
  destruct (truthy (stored_token (localStorage w))) eqn:Ht.
  - destruct (settle _) as [resp|error] eqn:Hs.
    + apply settle_resolved in Hs as (st & Hreply & Hst & _).
      destruct (authenticated (data resp)) eqn:Ha;
        [destruct (check_user (data resp)) as [u|] eqn:Hu|]; state_simpl.
      * set (w1 := with_isAuthenticated true _).
        destruct (after_profile_frame w1) as [[_ ->]|[_ [p ->]]].
        -- split_and!; [done| |]; destruct (verifying w); [done|discriminate].
        -- subst w1. split_and!; [done| |].
           ++ by destruct (verifying w).
           ++ intros _. split; [done|]. exists st, (data resp), u.
              split_and!; try done. by destruct (verifying w).
      * split_and!; [done| |]; destruct (verifying w); [done|discriminate].
      * split_and!; [done| |]; destruct (verifying w); [done|discriminate].
    + state_simpl. split_and!; [done| |]; destruct (verifying w); [done|discriminate].
  - state_simpl. split_and!; [done| |]; destruct w; [done|discriminate].
Qed.

(** ** The shared client *)

(** X6. A call through the shared client that is not answered with 401 leaves
    the whole state as it was, logs one request, and hands its caller the
    client's own result: the response when the status is in the 200 range,
    the client's error otherwise. *)
Theorem request_without_401_keeps_state {A} (endpoint : Config -> Reply A)
    (method url : string) (body : Body) (w : World) :
  let reply := endpoint (outgoing w method url body) in
  reply_status reply <> Some 401 ->
  final (request endpoint method url body) w = w
  /\ log (request endpoint method url body) w
       = [exchange endpoint (outgoing w method url body)]
  /\ outcome (request endpoint method url body) w
       = match settle reply with
         | inl resp => Normal resp
         | inr error => Thrown error
         end.
Proof.
  intros reply H401. unfold final, log, outcome, run. rewrite request_run.
  fold reply. destruct (settle reply) as [resp|error] eqn:Hs; state_simpl; [done|].
  by rewrite (settle_rejected _ _ Hs), bool_decide_eq_false_2.
Qed.

(** ** signIn, the failure paths *)

Lemma restore_header_common w :
  common (restore_header (common w !! "Authorization")
            (with_common (delete "Authorization") w))
    = if truthy (common w !! "Authorization") then common w
      else delete "Authorization" (common w).
Proof.
  destruct w as [ls hd u p ld a]. unfold restore_header. state_simpl.
  destruct (truthy (hd !! "Authorization")) eqn:Hh; state_simpl; [|done].
  rewrite insert_delete_eq. apply insert_id. by rewrite truthy_template.
Qed.

Lemma restore_header_frame o w :
  let w' := restore_header o w in
  localStorage w' = localStorage w /\ user w' = user w /\ profile w' = profile w
  /\ loading w' = loading w /\ isAuthenticated w' = isAuthenticated w.
Proof. unfold restore_header. destruct (truthy o); by destruct w. Qed.

(** How a rejected login ends. *)
Lemma signIn_rejected email password w error :
  settle (login_endpoint backend (login_request w email password)) = inr error ->
  let w0 := with_common (delete "Authorization") w in
  final (signIn' email password) w
    = restore_header (common w !! "Authorization")
        (if response_status_is error 401 then clear_session w0 else w0)
  /\ log (signIn' email password) w
       = [exchange (login_endpoint backend) (login_request w email password)]
  /\ outcome (signIn' email password) w = Thrown (classify JSON_stringify_data error).
Proof.
  intros Hs. unfold final, log, outcome, run. rewrite signIn_run. cbv zeta.
  by rewrite Hs.
Qed.

(** X16. A login answered with 401 is reported as "Invalid email or password",
    whatever message the body carries.  The response interceptor has
    then cleared the session: both token keys and the stored user are
    gone, user and profile are null and [isAuthenticated] is false.  The
    default header that was set before the call is put back all the
    same. *)
Theorem signIn_invalid_credentials
    (w : World) (email password : string) (d : LoginData) :
  login_endpoint backend (login_request w email password) = Http 401 d ->
  let w' := final (signIn' email password) w in
  outcome (signIn' email password) w = Thrown (Error "Invalid email or password")
  /\ session_reset w' /\ token_removed w'
  /\ localStorage w' !! "user" = None
  /\ common w' = (if truthy (common w !! "Authorization") then common w
                  else delete "Authorization" (common w))
  /\ length (log (signIn' email password) w) = 1%nat.
Proof.
  intros Hreply.
  destruct (signIn_rejected email password w
              {| message := "Request failed with status code " ++ pretty 401;
                 response := Some {| status := 401; data := d |} |})
    as (Hfinal & Hlog & Hout); [by rewrite Hreply|].
  cbv zeta. rewrite Hfinal, Hlog, Hout.
  change (response_status_is _ 401) with true. cbv iota.
  destruct (cleared_restore_header (common w !! "Authorization")
              (clear_session (with_common (delete "Authorization") w))
              (cleared_clear_session _)) as [Hreset Hremoved].
  split_and!; try done.
  - destruct w as [ls hd u p ld a]. unfold restore_header, clear_session. state_simpl.
    destruct (truthy (hd !! "Authorization")); state_simpl; apply lookup_delete_eq.
  - destruct w as [ls hd u p ld a]. unfold restore_header, clear_session. state_simpl.
    destruct (truthy (hd !! "Authorization")) eqn:Hh; state_simpl.
    + rewrite insert_delete_eq, insert_delete_eq. apply insert_id.
      by rewrite truthy_template.
    + apply delete_delete_eq.
Qed.

(** X17. A login that is rejected with anything but a 401 (another error
    status, or no response at all) leaves storage, user, profile, loading
    and [isAuthenticated] exactly as they were, puts the default header
    back, and throws a plain error after that single request. *)
Theorem signIn_failure_keeps_session
    (w : World) (email password : string) (error : JsError LoginData) :
  settle (login_endpoint backend (login_request w email password)) = inr error ->
  response_status_is error 401 = false ->
  let w' := final (signIn' email password) w in
  localStorage w' = localStorage w
  /\ user w' = user w /\ profile w' = profile w /\ loading w' = loading w
  /\ isAuthenticated w' = isAuthenticated w
  /\ common w' = (if truthy (common w !! "Authorization") then common w
                  else delete "Authorization" (common w))
  /\ (exists e, outcome (signIn' email password) w = Thrown e /\ response e = None)
  /\ length (log (signIn' email password) w) = 1%nat.
Proof.
  intros Hs H401. destruct (signIn_rejected email password w error Hs)
    as (Hfinal & Hlog & Hout).
  cbv zeta. rewrite Hfinal, Hlog, Hout, H401.
  destruct (restore_header_frame (common w !! "Authorization")
              (with_common (delete "Authorization") w)) as (Hls & Hu & Hp & Hld & Ha).
  rewrite Hls, Hu, Hp, Hld, Ha, restore_header_common.
  split_and!; try by destruct w.
  eexists. split; [done|]. unfold classify. by repeat case_match.
Qed.

(** X18. How [signIn] words an HTTP error: a 500 is a server error whatever
    the body says; any other rejected status (401 apart) whose body has a
    non-empty [message] is reported with that message. *)
Theorem signIn_http_error_message
    (w : World) (email password : string) (st : Z) (d : LoginData) :
  login_endpoint backend (login_request w email password) = Http st d ->
  validateStatus st = false ->
  (st = 500 ->
   outcome (signIn' email password) w
     = Thrown (Error "Server error - please try again later"))
  /\ (forall m, st <> 401 -> st <> 500 -> login_message d = Some m -> m <> "" ->
      outcome (signIn' email password) w = Thrown (Error m)).
Proof.
  intros Hreply Hst.
  destruct (signIn_rejected email password w
              {| message := "Request failed with status code " ++ pretty st;
                 response := Some {| status := st; data := d |} |})
    as (_ & _ & Hout); [by rewrite Hreply; unfold settle; rewrite Hst|].
  rewrite Hout. unfold classify, response_status_is. cbn [response status data].
  split.
  - by intros ->.
  - intros m H401 H500 Hm Hne.
    destruct (Z.eqb_spec st 401); [done|]. destruct (Z.eqb_spec st 500); [done|].
    cbn [mbind option_bind data]. by rewrite Hm, (truthy_nonempty m Hne).
Qed.

(** X19. How [signIn] words a request that got no response: a client message
    that mentions "Network Error" becomes the cannot-connect text, any
    other one the generic text (a message containing "no token" apart,
    which is taken for the missing-token error). *)
Theorem signIn_transport_error_message
    (w : World) (email password : string) (m : string) :
  login_endpoint backend (login_request w email password) = NoResponse m ->
  includes "no token" m = false ->
  outcome (signIn' email password) w
    = Thrown (Error (if includes "Network Error" m
                     then "Cannot connect to server. Check your internet connection."
                     else "Login failed. Please try again.")).
Proof.
  intros Hreply Hno.
  destruct (signIn_rejected email password w (Error m)) as (_ & _ & Hout);
    [by rewrite Hreply|].
  rewrite Hout. unfold classify, response_status_is, Error.
  cbn [response message mbind option_bind truthy]. rewrite Hno.
  by destruct (includes "Network Error" m).
Qed.

(** X20. A [signIn] that throws never raises the flag and never writes a
    token: the error is a plain one without a response, an
    unauthenticated session stays unauthenticated, and storage is either
    untouched or cleared of both token keys. *)
Theorem signIn_failure_never_authenticates
    (w : World) (email password : string) (e : JsError LoginData) :
  outcome (signIn' email password) w = Thrown e ->
  let w' := final (signIn' email password) w in
  response e = None
  /\ (isAuthenticated w = false -> isAuthenticated w' = false)
  /\ (localStorage w' = localStorage w \/ token_removed w').
Proof.
  unfold final, outcome, run. rewrite signIn_run. cbv zeta.
  assert (Hplain : forall err, response (classify JSON_stringify_data err) = None)
    by (intros err; unfold classify; by repeat case_match).
  destruct (settle _) as [resp|error].
  - destruct (truthy (find_token (data resp))); state_simpl; [done|].
    intros [= <-].
    destruct (restore_header_frame (common w !! "Authorization")
                (with_common (delete "Authorization") w)) as (Hls & _ & _ & _ & Ha).
    rewrite Hls, Ha. split_and!; [apply Hplain|by destruct w|left; by destruct w].
  - state_simpl. intros [= <-]. split; [apply Hplain|].
    destruct (response_status_is error 401).
    + destruct (cleared_restore_header (common w !! "Authorization")
                  (clear_session (with_common (delete "Authorization") w))
                  (cleared_clear_session _)) as [(_ & _ & Ha) Hremoved].
      split; [done|by right].
    + destruct (restore_header_frame (common w !! "Authorization")
                  (with_common (delete "Authorization") w)) as (Hls & _ & _ & _ & Ha).
      rewrite Hls, Ha. split; [by destruct w|left; by destruct w].
Qed.

(** ** signIn, what goes over the wire and what is kept *)

(** X13. [signIn] always starts with the login request: a POST of the
    credentials to the login url.  The default header is not on it; but
    if a usable token is still in storage, the request interceptor puts
    that token on it in bearer form. *)
Theorem signIn_login_request (w : World) (email password : string) :
  let config := login_request w email password in
  (exists rest, log (signIn' email password) w
                = exchange (login_endpoint backend) config :: rest)
  /\ method config = "POST" /\ url config = login_url
  /\ body config = Credentials email password
  /\ authorization config
       = if truthy (stored_token (localStorage w))
         then Some ("Bearer " ++ template (stored_token (localStorage w)))
         else None.
Proof.
  cbv zeta. split_and!.
  - unfold log, run. rewrite signIn_run. cbv zeta.
    destruct (settle _) as [resp|error]; [destruct (truthy (find_token _))|];
      state_simpl; by eexists.
  - unfold login_request, outgoing, requestInterceptor. cbn [headers].
    by destruct (truthy _).
  - unfold login_request, outgoing, requestInterceptor. cbn [headers].
    by destruct (truthy _).
  - unfold login_request, outgoing, requestInterceptor. cbn [headers].
    by destruct (truthy _).
  - unfold login_request. rewrite outgoing_authorization.
    destruct w as [ls hd u p ld a]. state_simpl.
    destruct (truthy (stored_token ls)); [done|]. apply lookup_delete_eq.
Qed.

(** X14. After a login response (200 range) with a usable token, [signIn]
    sends exactly one more request, the profile fetch, and that request
    already carries the new token in bearer form, whatever token or
    header was there before; [signIn] then returns normally, whatever
    the answer.  A positive answer (200 range, success, data) becomes the
    session's profile. *)
Theorem signIn_profile_request
    (w : World) (email password : string) (st : Z) (d : LoginData) (tok : string) :
  login_endpoint backend (login_request w email password) = Http st d ->
  validateStatus st = true ->
  find_token d = Some tok ->
  tok <> "" ->
  exists x,
    log (signIn' email password) w
      = [exchange (login_endpoint backend) (login_request w email password); x]
    /\ method (sent x) = "GET" /\ url (sent x) = profile_url
    /\ authorization (sent x) = Some ("Bearer " ++ tok)
    /\ outcome (signIn' email password) w = Normal tt
    /\ (forall stp dp pr,
          profile_endpoint backend (sent x) = Http stp dp ->
          validateStatus stp = true ->
          profile_success dp = true -> profile_data dp = Some pr ->
          profile (final (signIn' email password) w) = Some pr).
Proof.
  intros Hreply Hst Hfind Hne. unfold final, log, outcome, run.
  rewrite signIn_run. cbv zeta.
  rewrite Hreply. unfold settle at 1 2 3. rewrite Hst. state_simpl.
  rewrite Hfind, (truthy_nonempty tok Hne). state_simpl.
  change (template (Some tok)) with tok.
  set (w1 := signed_in _ tok _ _).
  exists (exchange (profile_endpoint backend) (profile_request w1)).
  assert (Hstored : stored_token (localStorage w1) = Some tok).
  { destruct (signed_in_state JSON_stringify_user tok
                (default (placeholder_user email) (login_user d))
                (with_common (delete "Authorization") w)) as (HA & _).
    fold w1 in HA. unfold stored_token, js_or.
    by rewrite HA, (truthy_nonempty tok Hne). }
  split_and!; try done.
  - unfold exchange, profile_request, outgoing, requestInterceptor. cbn [sent headers].
    by destruct (truthy _).
  - unfold exchange, profile_request, outgoing, requestInterceptor. cbn [sent headers].
    by destruct (truthy _).
  - unfold exchange, profile_request. cbn [sent]. rewrite outgoing_authorization.
    by rewrite Hstored, (truthy_nonempty tok Hne).
  - intros stp dp pr Hp Hstp Hok Hdata. cbn [exchange sent] in Hp.
    unfold after_profile. rewrite Hp. unfold settle. rewrite Hstp. state_simpl.
    rewrite Hok, Hdata. cbn [andb present]. by destruct w1.
Qed.

(** X15. What a successful [signIn] keeps about the user (no request answered
    with 401): the user record is the server's, or the placeholder
    [{id: 1, name: Admin, email, role: admin}] built from the email typed
    in when the server sent none; its serialisation is stored under the
    [user] key; loading is not touched. *)
Theorem signIn_records_user
    (w : World) (email password : string) (st : Z) (d : LoginData) (tok : string) :
  login_endpoint backend (login_request w email password) = Http st d ->
  validateStatus st = true ->
  find_token d = Some tok ->
  tok <> "" ->
  (forall x, x ∈ log (signIn' email password) w -> answered x <> Some 401) ->
  let w' := final (signIn' email password) w in
  let userData := default (placeholder_user email) (login_user d) in
  user w' = Some userData
  /\ localStorage w' !! "user" = Some (JSON_stringify_user userData)
  /\ (login_user d = None ->
      userData = {| u_id := 1; u_name := "Admin"; u_email := email; u_role := "admin";
                    u_full_name := None; u_api_token := None |})
  /\ (forall u, login_user d = Some u -> userData = u)
  /\ loading w' = loading w.
Proof.
  intros Hreply Hst Hfind Hne Hlog. unfold final, log, run in *.
  rewrite signIn_run in *. cbv zeta in *.
  rewrite Hreply in *. unfold settle in *. rewrite Hst in *. state_simpl.
  rewrite Hfind, (truthy_nonempty tok Hne) in *. state_simpl.
  change (template (Some tok)) with tok in *.
  destruct (signed_in_state JSON_stringify_user tok
              (default (placeholder_user email) (login_user d))
              (with_common (delete "Authorization") w)) as (_ & _ & HUK & _ & HU & _).
  set (w1 := signed_in _ tok _ _) in *.
  assert (Hld : loading w1 = loading w) by (subst w1; by destruct w).
  destruct (after_profile_frame w1) as [[H401 _]|[_ [p ->]]].
  - exfalso. apply (Hlog _ ltac:(apply elem_of_app; right; by apply list_elem_of_singleton)).
    exact H401.
  - split_and!; [by destruct w1|by destruct w1|by intros ->|by intros u ->|by destruct w1].
Qed.

(** ** Across the operations *)

Lemma after_profile_cases (P : World -> Prop) w :
  P (clear_session w) -> (forall p, P (with_profile p w)) ->
  P (after_profile backend w).
Proof.
  intros Hclear Hprofile.
  destruct (after_profile_frame w) as [[_ ->]|[_ [p ->]]]; [done|apply Hprofile].
Qed.

Lemma url_outgoing w m u b : url (outgoing w m u b) = u.
Proof.
  unfold outgoing, requestInterceptor. cbn [headers]. by destruct (truthy _).
Qed.

(** X21. No operation ever turns loading on: [checkAuth] ends it, the others
    leave it as it is. *)
Theorem loading_only_falls (op : Operation) (w : World) :
  loading (final (exec op) w)
    = match op with
      | CheckAuth => false
      | _ => loading w
      end.
Proof.
  destruct op as [email password| | |]; cbn [perform].
  - unfold final, run. rewrite signIn_run. cbv zeta.
    destruct (settle _) as [resp|error];
      [destruct (truthy (find_token _))|destruct (response_status_is error 401)];
      state_simpl;
      try (apply after_profile_cases; [|intros p]);
      unfold restore_header; try destruct (truthy (common w !! _));
      by destruct w.
  - destruct (signOut_run backend (E:=JsError LoginData) w) as [-> _]. by destruct w.
  - unfold final, run. rewrite checkAuth_run. cbv zeta.
    destruct (truthy _); [destruct (settle _); [destruct (_ && _)|]|]; state_simpl;
      try (apply after_profile_cases; [|intros p]);
      unfold verifying; by destruct w.
  - unfold refreshProfile, final, run. rewrite fetch_profile_run. state_simpl.
    apply after_profile_cases; [|intros p]; by destruct w.
Qed.

(** ** The token keys stay in sync *)

Lemma sync_same_storage w w' :
  localStorage w' = localStorage w -> tokens_in_sync w -> tokens_in_sync w'.
Proof. unfold tokens_in_sync. by intros ->. Qed.

Lemma sync_clear_session w : tokens_in_sync (clear_session w).
Proof.
  destruct (clear_session_removed w) as [HA HT]. unfold tokens_in_sync. by rewrite HA, HT.
Qed.

Lemma sync_signed_in token userData w :
  tokens_in_sync (signed_in JSON_stringify_user token userData w).
Proof.
  destruct (signed_in_state JSON_stringify_user token userData w) as (HA & HT & _).
  unfold tokens_in_sync. by rewrite HA, HT.
Qed.

Lemma sync_after_profile w : tokens_in_sync w -> tokens_in_sync (after_profile backend w).
Proof.
  intros Hw. apply after_profile_cases; [apply sync_clear_session|].
  intros p. apply (sync_same_storage w); [by destruct w|done].
Qed.

(** X22. The two token keys are written together and removed together:
    every operation keeps them equal if they were, and [signOut], as
    well as any [signIn] that returns normally, leaves them equal
    whatever storage held before. *)
Theorem tokens_stay_in_sync (op : Operation) (w : World) :
  tokens_in_sync w
  \/ op = SignOut
  \/ (exists email password,
        op = SignIn email password /\ outcome (exec op) w = Normal tt) ->
  tokens_in_sync (final (exec op) w).
Proof.
  destruct op as [email password| | |]; cbn [perform].
  - unfold final, outcome, run. rewrite signIn_run. cbv zeta.
    destruct (settle _) as [resp|error];
      [destruct (truthy (find_token _))|]; state_simpl.
    + intros _. apply sync_after_profile, sync_signed_in.
    + intros [Hw|[[=]|(? & ? & _ & [=])]].
      apply (sync_same_storage w); [|done].
      unfold restore_header. destruct (truthy _); by destruct w.
    + intros [Hw|[[=]|(? & ? & _ & [=])]].
      destruct (response_status_is error 401).
      * apply (sync_same_storage (clear_session (with_common (delete "Authorization") w)));
          [|apply sync_clear_session].
        unfold restore_header. destruct (truthy _); [|done].
        by destruct (clear_session _).
      * apply (sync_same_storage w); [|done].
        unfold restore_header. destruct (truthy _); by destruct w.
  - intros _. destruct (signOut_run backend (E:=JsError LoginData) w) as [-> _].
    apply sync_clear_session.
  - intros [Hw|[[=]|(? & ? & [=] & _)]].
    unfold final, run. rewrite checkAuth_run. cbv zeta.
    destruct (truthy _); [destruct (settle _); [destruct (_ && _)|]|]; state_simpl.
    + apply (sync_same_storage (after_profile backend
               (with_isAuthenticated true
                  (with_user (check_user (data r)) (verifying w)))));
        [by destruct (after_profile _ _)|].
      apply sync_after_profile, (sync_same_storage w); [|done].
      unfold verifying. by destruct w.
    + apply (sync_same_storage (clear_session (verifying w)));
        [by destruct (clear_session _)|apply sync_clear_session].
    + apply (sync_same_storage (clear_session (verifying w)));
        [by destruct (clear_session _)|apply sync_clear_session].
    + apply (sync_same_storage w); [by destruct w|done].
  - intros [Hw|[[=]|(? & ? & [=] & _)]].
    unfold refreshProfile, final, run. rewrite fetch_profile_run.
    by apply sync_after_profile.
Qed.

(** ** No retries *)

Lemma login_profile_urls_differ : login_url <> profile_url.
Proof. by vm_compute. Qed.

Lemma check_auth_profile_urls_differ : check_auth_url <> profile_url.
Proof. by vm_compute. Qed.

(** X23. No operation repeats a request: each sends at most two, to different
    urls; [signOut] and [refreshProfile] send exactly one, [signIn] at
    least one, and [signIn] sends its second one only to fetch the
    profile. *)
Theorem request_budget (op : Operation) (w : World) :
  let urls := map (fun x => url (sent x)) (log (exec op) w) in
  (length urls <= 2)%nat
  /\ NoDup urls
  /\ match op with
     | SignIn _ _ => urls = [login_url] \/ urls = [login_url; profile_url]
     | SignOut => length urls = 1%nat
     | CheckAuth => urls = [] \/ urls = [check_auth_url]
                    \/ urls = [check_auth_url; profile_url]
     | RefreshProfile => urls = [profile_url]
     end.
Proof.
  assert (H1 : forall u : string, NoDup [u]) by (intros u; apply NoDup_singleton).
  assert (H2 : forall u v : string, u <> v -> NoDup [u; v]).
  { intros u v Hne. apply NoDup_cons. split; [|apply NoDup_singleton].
    by intros ->%list_elem_of_singleton. }
  destruct op as [email password| | |]; cbn [perform]; cbv zeta.
  - unfold log, run. rewrite signIn_run. cbv zeta.
    destruct (settle _) as [resp|error];
      [destruct (truthy (find_token _))|]; state_simpl;
      cbn [map app exchange sent length]; unfold login_request, profile_request;
      rewrite ?url_outgoing; split_and!; auto using login_profile_urls_differ.
  - unfold signOut. eff_unfold. rewrite request_run.
    destruct (settle _) as [resp|error]; state_simpl; cbn [map app length];
      split_and!; auto.
  - unfold log, run. rewrite checkAuth_run. cbv zeta.
    destruct (truthy _); [destruct (settle _); [destruct (_ && _)|]|]; state_simpl;
      cbn [map app exchange sent length]; unfold check_auth_request, profile_request;
      rewrite ?url_outgoing; split_and!;
      auto using check_auth_profile_urls_differ, NoDup_nil_2.
  - unfold refreshProfile, log, run. rewrite fetch_profile_run. state_simpl.
    cbn [map app exchange sent length]. unfold profile_request.
    rewrite url_outgoing. split_and!; auto.
Qed.

(** ** What an authenticated session looks like *)

Lemma consistent_unauthenticated w : isAuthenticated w = false -> session_consistent w.
Proof. unfold session_consistent. congruence. Qed.

Lemma consistent_clear_session w : session_consistent (clear_session w).
Proof. apply consistent_unauthenticated. by destruct w. Qed.

Lemma consistent_with_profile p w :
  session_consistent w -> session_consistent (with_profile p w).
Proof. by destruct w. Qed.

Lemma consistent_with_loading b w :
  session_consistent w -> session_consistent (with_loading b w).
Proof. by destruct w. Qed.

Lemma consistent_after_profile w :
  session_consistent w -> session_consistent (after_profile backend w).
Proof.
  intros Hw. apply after_profile_cases; [apply consistent_clear_session|].
  intros p. by apply consistent_with_profile.
Qed.

Lemma truthy_inv o : truthy o = true -> exists tok, o = Some tok /\ tok <> "".
Proof.
  destruct o as [tok|]; [|done]. intros Ht. exists tok. split; [done|].
  intros ->. done.
Qed.

Lemma consistent_signed_in tok userData w :
  tok <> "" -> session_consistent (signed_in JSON_stringify_user tok userData w).
Proof.
  intros Hne _.
  destruct (signed_in_state JSON_stringify_user tok userData w)
    as (HA & _ & _ & HH & HU & _).
  split; [by rewrite HU|]. exists tok. split_and!; [done| |done].
  unfold stored_token, js_or. by rewrite HA, (truthy_nonempty tok Hne).
Qed.

Lemma consistent_verified u w :
  truthy (stored_token (localStorage w)) = true ->
  session_consistent (with_isAuthenticated true (with_user (Some u) (verifying w))).
Proof.
  intros (tok & Htok & Hne)%truthy_inv _. destruct w as [ls hd u0 p ld a].
  unfold verifying. state_simpl. split; [by eexists|].
  exists tok. split_and!; [done|done|]. rewrite Htok. apply lookup_insert_eq.
Qed.

Lemma consistent_restore_header w :
  session_consistent w ->
  session_consistent (restore_header (common w !! "Authorization")
                        (with_common (delete "Authorization") w)).
Proof.
  intros Hw. destruct w as [ls hd u p ld a].
  unfold session_consistent, restore_header in *. state_simpl.
  destruct (truthy (hd !! "Authorization")) eqn:Hh; state_simpl;
    intros Ha; destruct (Hw Ha) as (Hu & tok & Hne & Htok & Hhd).
  - split; [done|]. exists tok. split_and!; [done|done|].
    rewrite lookup_insert_eq, Hhd. done.
  - rewrite Hhd in Hh. done.
Qed.

Lemma signIn_consistent email password w :
  session_consistent w -> session_consistent (final (signIn' email password) w).
Proof.
  intros Hw. unfold final, run. rewrite signIn_run. cbv zeta.
  destruct (settle _) as [resp|error].
  - destruct (truthy (find_token (data resp))) eqn:Ht; state_simpl.
    + apply truthy_inv in Ht as (tok & -> & Hne).
      by apply consistent_after_profile, consistent_signed_in.
    + by apply consistent_restore_header.
  - state_simpl. destruct (response_status_is error 401).
    + apply consistent_unauthenticated.
      rewrite isAuthenticated_restore_header. by destruct w.
    + by apply consistent_restore_header.
Qed.

Lemma checkAuth_consistent {E} w : session_consistent (final (@checkAuth backend E) w).
Proof.
  unfold final, run. rewrite checkAuth_run. cbv zeta.
  destruct (truthy (stored_token (localStorage w))) eqn:Ht.
  - destruct (settle _) as [resp|error];
      [destruct (authenticated (data resp));
       [destruct (check_user (data resp)) as [u|]|]|];
      state_simpl; apply consistent_with_loading;
      (apply consistent_clear_session
       || by apply consistent_after_profile, consistent_verified).
  - state_simpl. apply consistent_unauthenticated. by destruct w.
Qed.

Lemma operation_consistent op w :
  session_consistent w -> session_consistent (final (exec op) w).
Proof.
  intros Hw. destruct op as [email password| | |]; cbn [perform].
  - by apply signIn_consistent.
  - destruct (signOut_run backend (E:=JsError LoginData) w) as [-> _].
    apply consistent_clear_session.
  - apply checkAuth_consistent.
  - unfold refreshProfile, final, run. rewrite fetch_profile_run.
    by apply consistent_after_profile.
Qed.

(** ** The mount effect *)

Lemma verifying_preset w :
  verifying
    (with_common (insert "Authorization"
                    ("Bearer " ++ template (stored_token (localStorage w)))) w)
    = verifying w.
Proof.
  destruct w as [ls hd u p ld a]. unfold verifying. state_simpl.
  by rewrite insert_insert_eq.
Qed.

Lemma initialize_run {E} w : run (@initialize backend E) w = run (@checkAuth backend E) w.
Proof.
  unfold initialize, run. eff_simpl.
  destruct (truthy (stored_token (localStorage w))) eqn:Ht; state_simpl; [|done].
  rewrite !checkAuth_run. cbv zeta. unfold check_auth_request.
  rewrite verifying_preset.
  replace (localStorage (with_common _ w)) with (localStorage w) by (by destruct w).
  by rewrite Ht.
Qed.

(** X11. The header the mount effect installs before calling [checkAuth] is
    the one [checkAuth] installs itself: mounting behaves exactly like
    [checkAuth] alone, in the requests it sends, the state it ends in and
    its completion. *)
Theorem initialize_is_checkAuth (E : Type) (w : World) :
  log (@initialize backend E) w = log (@checkAuth backend E) w
  /\ final (@initialize backend E) w = final (@checkAuth backend E) w
  /\ outcome (@initialize backend E) w = outcome (@checkAuth backend E) w.
Proof. unfold log, final, outcome. by rewrite initialize_run. Qed.

Lemma initialize_consistent {E} w :
  session_consistent (final (@initialize backend E) w).
Proof.
  unfold final. rewrite initialize_run. apply (@checkAuth_consistent E).
Qed.

(** ** checkAuth on the wire, and after signOut *)

(** X10. Every request [checkAuth] sends carries the stored token in bearer
    form, the verification request as well as the profile fetch. *)
Theorem checkAuth_requests_carry_token (E : Type) (w : World) (x : Exchange) :
  x ∈ log (@checkAuth backend E) w ->
  truthy (stored_token (localStorage w)) = true
  /\ authorization (sent x)
       = Some ("Bearer " ++ template (stored_token (localStorage w))).
Proof.
  unfold log, run. rewrite checkAuth_run. cbv zeta.
  destruct (truthy (stored_token (localStorage w))) eqn:Ht;
    [|state_simpl; intros Hx; by in_log].
  assert (Hcheck : authorization (check_auth_request w)
                   = Some ("Bearer " ++ template (stored_token (localStorage w)))).
  { unfold check_auth_request. rewrite outgoing_authorization.
    replace (localStorage (verifying w)) with (localStorage w)
      by (unfold verifying; by destruct w).
    by rewrite Ht. }
  destruct (settle _) as [resp|error]; [destruct (_ && _)|];
    state_simpl; intros Hx; in_log; cbn [exchange sent]; split; try done.
  unfold profile_request. rewrite outgoing_authorization.
  replace (localStorage (with_isAuthenticated true _)) with (localStorage w)
    by (unfold verifying; by destruct w).
  by rewrite Ht.
Qed.

(** X12. After [signOut] nothing is left to verify: a second [signOut] changes
    nothing more, and [checkAuth] (or a remount) sends no request and
    leaves the session signed out, with loading ended. *)
Theorem signOut_then_checkAuth (E : Type) (w : World) :
  let w1 := final (@signOut backend E) w in
  final (@signOut backend E) w1 = w1
  /\ log (@checkAuth backend E) w1 = []
  /\ log (@initialize backend E) w1 = []
  /\ final (@checkAuth backend E) w1 = with_loading false w1
  /\ isAuthenticated (final (@checkAuth backend E) w1) = false
  /\ stored_token (localStorage w1) = None.
Proof.
  cbv zeta. destruct (@signOut_run backend E w) as [-> _].
  destruct (@signOut_run backend E (clear_session w)) as [-> _].
  assert (Hnone : stored_token (localStorage (clear_session w)) = None).
  { destruct (clear_session_removed w) as [HA HT].
    unfold stored_token, js_or. by rewrite HA, HT. }
  unfold log at 2. rewrite initialize_run.
  unfold final, log, run. rewrite !checkAuth_run. cbv zeta. rewrite Hnone.
  cbn [truthy]. state_simpl.
  split_and!; [apply clear_session_idem|done|done| | |done]; by destruct w.
Qed.

End Coverage.

(** X24. In every state the provider reaches from mount, an authenticated
    session has a user and a usable stored token, and the default
    Authorization header is the bearer form of exactly that token. *)
Theorem reachable_session_consistent
    (storage defaults : gmap string string) (w : World) :
  reachable storage defaults w -> session_consistent w.
Proof.
  induction 1 as [backend|backend ju jd op w _ IH].
  - apply initialize_consistent.
  - by apply operation_consistent.
Qed.

(** * The further properties on the scenarios *)

Lemma stored_token_precedence_witness :
  stored_token returning_storage = Some "abc123"
  /\ stored_token legacy_storage = legacy_storage !! "token".
Proof.
  split.
  - destruct (stored_token_precedence returning_storage) as [Hfirst _].
    apply Hfirst; [vm_compute; reflexivity|discriminate].
  - destruct (stored_token_precedence legacy_storage) as [_ Hsecond].
    apply Hsecond. right. vm_compute. reflexivity.
Defined.


Lemma helpers_send_stored_token_witness :
  getAuthHeaders returning_storage !! "Authorization" = Some "Bearer abc123"
  /\ init_headers (snd (authFetch returning_storage "/api/admin/employees" no_options))
       ≫= (.!! "Authorization") = Some "Bearer abc123".
Proof.
  destruct (helpers_send_stored_token returning_storage "abc123" "/api/admin/employees"
              no_options
              {| method := "GET"; url := "/api/admin/employees";
                 headers := Some ∅; body := NoBody |} ∅)
    as (Hheaders & _ & Hfetch & _);
    [vm_compute; reflexivity|discriminate|reflexivity|reflexivity|].
  split; [exact Hheaders|exact Hfetch].
Defined.

Lemma checkAuth_without_token_witness :
  truthy (stored_token (localStorage fresh_world)) = false
  /\ log (@checkAuth offline_backend unit) fresh_world = []
  /\ loading (final (@checkAuth offline_backend unit) fresh_world) = false.
Proof.
  assert (Ht : truthy (stored_token (localStorage fresh_world)) = false)
    by (vm_compute; reflexivity).
  destruct (checkAuth_without_token offline_backend unit fresh_world Ht)
    as (Hlog & _ & Hloading & _).
  split_and!; [exact Ht|exact Hlog|exact Hloading].
Defined.

Lemma checkAuth_affirmative_witness :
  let w' := final (@checkAuth healthy_backend unit) returning_world in
  user w' = Some admin_user /\ isAuthenticated w' = true /\ loading w' = false.
Proof.
  assert (Hlog : Forall (fun x => answered x <> Some 401)
                   (log (@checkAuth healthy_backend unit) returning_world))
    by (vm_compute; repeat constructor; discriminate).
  rewrite Forall_forall in Hlog.
  destruct (checkAuth_affirmative healthy_backend unit returning_world 200
              {| authenticated := true; check_user := Some admin_user |} admin_user)
    as (Hu & Ha & Hl & _);
    [vm_compute; reflexivity|reflexivity|reflexivity|reflexivity|reflexivity|exact Hlog|].
  split_and!; [exact Hu|exact Ha|exact Hl].
Defined.

Lemma checkAuth_settles_witness :
  let w' := final (@checkAuth healthy_backend unit) returning_world in
  isAuthenticated w' = true
  /\ truthy (stored_token (localStorage returning_world)) = true
  /\ loading w' = false.
Proof.
  assert (Ha : isAuthenticated (final (@checkAuth healthy_backend unit) returning_world)
               = true) by (vm_compute; reflexivity).
  destruct (checkAuth_settles healthy_backend unit returning_world) as (_ & Hl & Honly).
  destruct (Honly Ha) as [Ht _].
  split_and!; [exact Ha|exact Ht|exact Hl].
Defined.

Lemma request_without_401_keeps_state_witness :
  final (request (login_endpoint (login_failure 500)) "POST" login_url NoBody)
        authenticated_world
    = authenticated_world.
Proof.
  destruct (request_without_401_keeps_state (login_endpoint (login_failure 500))
              "POST" login_url NoBody authenticated_world) as [Hsame _];
    [discriminate|exact Hsame].
Defined.

Lemma signIn_invalid_credentials_witness :
  let run_it := signIn (login_failure 401) render_user render_data "a@x.com" "wrong" in
  outcome run_it authenticated_world = Thrown (Error "Invalid email or password")
  /\ token_removed (final run_it authenticated_world)
  /\ common (final run_it authenticated_world) !! "Authorization"
       = Some "Bearer abc123".
Proof.
  destruct (signIn_invalid_credentials (login_failure 401) render_user render_data
              authenticated_world "a@x.com" "wrong" login_rejected)
    as (Hout & _ & Hremoved & _ & Hcommon & _); [reflexivity|].
  split_and!; [exact Hout|exact Hremoved|].
  rewrite Hcommon. vm_compute. reflexivity.
Defined.

Lemma signIn_failure_keeps_session_witness :
  let run_it := signIn offline_backend render_user render_data "a@x.com" "pw" in
  localStorage (final run_it authenticated_world) = localStorage authenticated_world
  /\ isAuthenticated (final run_it authenticated_world) = true
  /\ common (final run_it authenticated_world) = common authenticated_world.
Proof.
  destruct (signIn_failure_keeps_session offline_backend render_user render_data
              authenticated_world "a@x.com" "pw" (Error "Network Error"))
    as (Hls & _ & _ & _ & Ha & Hcommon & _); [reflexivity|reflexivity|].
  split_and!; [exact Hls|exact Ha|].
  rewrite Hcommon. vm_compute. reflexivity.
Defined.

Lemma signIn_http_error_message_witness :
  outcome (signIn (login_failure 500) render_user render_data "a@x.com" "pw") fresh_world
    = Thrown (Error "Server error - please try again later")
  /\ outcome (signIn (login_failure 422) render_user render_data "a@x.com" "pw")
             fresh_world
       = Thrown (Error "These credentials do not match our records.").
Proof.
  split.
  - destruct (signIn_http_error_message (login_failure 500) render_user render_data
                fresh_world "a@x.com" "pw" 500 login_rejected) as [Hserver _];
      [reflexivity|reflexivity|].
    apply Hserver. reflexivity.
  - destruct (signIn_http_error_message (login_failure 422) render_user render_data
                fresh_world "a@x.com" "pw" 422 login_rejected) as [_ Hmessage];
      [reflexivity|reflexivity|].
    apply Hmessage; [discriminate|discriminate|reflexivity|discriminate].
Defined.

Lemma signIn_transport_error_message_witness :
  outcome (signIn offline_backend render_user render_data "a@x.com" "pw") fresh_world
    = Thrown (Error "Cannot connect to server. Check your internet connection.").
Proof.
  exact (signIn_transport_error_message offline_backend render_user render_data
           fresh_world "a@x.com" "pw" "Network Error" eq_refl eq_refl).
Defined.

Lemma signIn_failure_never_authenticates_witness :
  let run_it := signIn tokenless_backend render_user render_data "a@x.com" "pw" in
  isAuthenticated fresh_world = false
  /\ isAuthenticated (final run_it fresh_world) = false.
Proof.
  destruct (signIn_failure_never_authenticates tokenless_backend render_user render_data
              fresh_world "a@x.com" "pw"
              (Error "Login failed - no token in response."))
    as (_ & Hflag & _); [vm_compute; reflexivity|].
  split; [reflexivity|]. apply Hflag. reflexivity.
Defined.

Lemma signIn_profile_request_witness :
  exists x,
    log (signIn healthy_backend render_user render_data "a@x.com" "pw")
        authenticated_world
      = [exchange (login_endpoint healthy_backend)
           (login_request authenticated_world "a@x.com" "pw"); x]
    /\ authorization (sent x) = Some "Bearer abc123".
Proof.
  destruct (signIn_profile_request healthy_backend render_user render_data
              authenticated_world "a@x.com" "pw" 200 login_with_token "abc123")
    as (x & Hlog & _ & _ & Hauth & _);
    [reflexivity|reflexivity|vm_compute; reflexivity|discriminate|].
  exists x. split; [exact Hlog|exact Hauth].
Defined.

Lemma signIn_records_user_witness :
  let w' := final (signIn userless_backend render_user render_data "boss@x.com" "pw")
              fresh_world in
  user w' = Some (placeholder_user "boss@x.com")
  /\ localStorage w' !! "user" = Some "{email:boss@x.com}".
Proof.
  assert (Hlog : Forall (fun x => answered x <> Some 401)
                   (log (signIn userless_backend render_user render_data
                           "boss@x.com" "pw") fresh_world))
    by (vm_compute; repeat constructor; discriminate).
  rewrite Forall_forall in Hlog.
  destruct (signIn_records_user userless_backend render_user render_data
              fresh_world "boss@x.com" "pw" 200 login_token_only "abc123")
    as (Hu & Hkey & _);
    [reflexivity|reflexivity|vm_compute; reflexivity|discriminate|exact Hlog|].
  split; [exact Hu|exact Hkey].
Defined.

Lemma tokens_stay_in_sync_witness :
  let w := mounted legacy_storage ∅ in
  let op := SignIn "a@x.com" "pw" in
  ~ tokens_in_sync w
  /\ tokens_in_sync (final (perform healthy_backend render_user render_data op) w).
Proof.
  intros w op. split.
  - unfold tokens_in_sync. vm_compute. discriminate.
  - apply (tokens_stay_in_sync healthy_backend render_user render_data op w).
    right. right. exists "a@x.com", "pw". split; [reflexivity|].
    vm_compute. reflexivity.
Defined.

Lemma checkAuth_requests_carry_token_witness :
  let x := exchange (check_auth_endpoint healthy_backend)
             (check_auth_request returning_world) in
  x ∈ log (@checkAuth healthy_backend unit) returning_world
  /\ authorization (sent x) = Some "Bearer abc123".
Proof.
  intros x.
  assert (Hx : x ∈ log (@checkAuth healthy_backend unit) returning_world)
    by (vm_compute; constructor).
  destruct (checkAuth_requests_carry_token healthy_backend unit returning_world x Hx)
    as [_ Hauth].
  split; [exact Hx|]. rewrite Hauth. vm_compute. reflexivity.
Defined.

Lemma reachable_session_consistent_witness :
  let w := final (perform healthy_backend render_user render_data (SignIn "a@x.com" "pw"))
             (final (@initialize offline_backend unit) (mounted ∅ ∅)) in
  reachable ∅ ∅ w /\ isAuthenticated w = true /\ session_consistent w.
Proof.
  intros w.
  assert (Hreach : reachable ∅ ∅ w) by (apply reach_operation, reach_mount).
  split_and!; [exact Hreach|vm_compute; reflexivity|].
  exact (reachable_session_consistent ∅ ∅ w Hreach).
Defined.
